(** * ytkvercel: the HTTP facade of [api/index.py]

    A shallow embedding of the Flask application in [api/index.py] and
    the properties of its result shaping, its extraction gateway and its
    response cache.

    Conventions of the embedding.
    - Python values are the JSON-like values [PyVal]; dictionaries are
      association lists in insertion order, a lookup takes the first
      binding.  The libraries are taken to return such values: JSON
      data, which [jsonify] serialises and the cache stores without
      fail.  Floating-point values are not part of [PyVal]: the code
      only copies them, except in [format_size], whose division and
      [.2f] rendering are modelled on IEEE binary64 ([SpecFloat]) for
      integer byte counts.
    - Python strings are [string]s of ASCII characters; the one literal
      of the source outside ASCII is kept as its UTF-8 bytes.  The
      string functions are those of Python on ASCII strings.
    - The interpreter is Python 3.11 or later: integers are read and
      printed with 4300 digits at most, and the [TimeoutError] of
      [concurrent.futures] is the built-in one.
    - A Python exception is a value of [PyExc]; code that may raise
      returns [Res].
    - The extraction library, the search library, the clock and the
      cache backend are outside the repository: their answers are the
      fields of [Outside] and of [World]. *)

From Stdlib Require Import ZArith Lia Ascii String DecimalString DecimalPos.
From Stdlib Require Import Floats.SpecFloat.
From stdpp Require Import base option list strings gmap.

Local Open Scope Z_scope.
Set Warnings "-register-all".

(** ** Python values *)

Inductive PyVal :=
  | PNone
  | PBool (b : bool)
  | PInt (n : Z)
  | PStr (s : string)
  | PList (l : list PyVal)
  | PDict (d : list (string * PyVal)).

(** Exceptions, with the operand their message is built from.
    [ValueError] is the one of an invalid literal for [int],
    [DigitLimit] the [ValueError] of an integer with more digits than
    the interpreter reads or prints. *)
Inductive PyExc :=
  | AttributeError (v : PyVal) (attr : string)
  | NotIterable (v : PyVal)
  | NotSubscriptable (v : PyVal)
  | NotOrderable (v : PyVal)
  | IndexError
  | KeyError (k : PyVal)
  | ValueError (literal : string)
  | DigitLimit
  | OverflowError
  | NotSerializable
  | NotAResponse (v : PyVal)
  | LibraryError (msg : string).

Inductive Res (A : Type) :=
  | Ok (a : A)
  | Raise (e : PyExc).
Arguments Ok {A} a.
Arguments Raise {A} e.

#[global] Instance res_ret : MRet Res := fun A a => Ok a.
#[global] Instance res_bind : MBind Res := fun A B f m =>
  match m with Ok a => f a | Raise e => Raise e end.

(** [bool(v)] *)
Definition truthy (v : PyVal) : bool :=
  match v with
  | PNone => false
  | PBool b => b
  | PInt n => negb (n =? 0)
  | PStr s => negb (String.eqb s EmptyString)
  | PList l => match l with [] => false | _ => true end
  | PDict d => match d with [] => false | _ => true end
  end.

(** [a or b] *)
Definition py_or (a b : PyVal) : PyVal := if truthy a then a else b.

Fixpoint assoc {A} (k : string) (d : list (string * A)) : option A :=
  match d with
  | [] => None
  | (k', v) :: d' => if String.eqb k k' then Some v else assoc k d'
  end.

(** [d.get(k)] and [d.get(k, dflt)] on a dictionary *)
Definition dict_get (d : list (string * PyVal)) (k : string) : PyVal :=
  default PNone (assoc k d).
Definition dict_get_or (d : list (string * PyVal)) (k : string) (dflt : PyVal)
  : PyVal := default dflt (assoc k d).

(** [v.get(k)] on any value: only dictionaries have the attribute. *)
Definition py_get (v : PyVal) (k : string) : Res PyVal :=
  match v with
  | PDict d => Ok (dict_get d k)
  | _ => Raise (AttributeError v "get")
  end.
Definition py_get_or (v : PyVal) (k : string) (dflt : PyVal) : Res PyVal :=
  match v with
  | PDict d => Ok (dict_get_or d k dflt)
  | _ => Raise (AttributeError v "get")
  end.

(** [v != 'none'], the comparison with a string literal *)
Definition differs_from (v : PyVal) (lit : string) : bool :=
  match v with
  | PStr s => negb (String.eqb s lit)
  | _ => true
  end.

Fixpoint chars (s : string) : list PyVal :=
  match s with
  | EmptyString => []
  | String c s' => PStr (String c EmptyString) :: chars s'
  end.

(** The elements a [for] loop visits. *)
Definition py_iter (v : PyVal) : Res (list PyVal) :=
  match v with
  | PList l => Ok l
  | PStr s => Ok (chars s)
  | PDict d => Ok (PStr <$> d.*1)
  | _ => Raise (NotIterable v)
  end.

(** [v[0]] *)
Definition py_item0 (v : PyVal) : Res PyVal :=
  match v with
  | PList (x :: _) => Ok x
  | PList [] => Raise IndexError
  | PStr (String c _) => Ok (PStr (String c EmptyString))
  | PStr EmptyString => Raise IndexError
  | PDict d => Raise (KeyError (PInt 0))
  | _ => Raise (NotSubscriptable v)
  end.

(** ** Strings *)

Definition is_digit (c : ascii) : bool :=
  match Ascii.is_nat c with Some _ => true | None => false end.

(** [str.isspace] on an ASCII character: the C white space and the
    four separators 0x1c to 0x1f. *)
Definition is_uspace (c : ascii) : bool :=
  Ascii.is_space c ||
  match c with "028" | "029" | "030" | "031" => true | _ => false end%char.

Fixpoint lstrip (s : string) : string :=
  match s with
  | String c s' => if is_uspace c then lstrip s' else s
  | EmptyString => EmptyString
  end.
Definition strip (s : string) : string :=
  String.rev (lstrip (String.rev (lstrip s))).

Fixpoint all_chars (p : ascii -> bool) (s : string) : bool :=
  match s with
  | EmptyString => true
  | String c s' => p c && all_chars p s'
  end.

(** [s.isdigit()], on an ASCII string *)
Definition isdigit (s : string) : bool :=
  negb (String.eqb s EmptyString) && all_chars is_digit s.

(** The strings of the model stand for Python strings of ASCII
    characters, and [isdigit], [strip] and [py_int] are the functions
    of Python on such strings.  Outside ASCII Python knows more digits
    and more white space; the properties that depend on what these
    functions do with a character are stated for the strings of
    [ascii_only]. *)
Definition is_ascii (c : ascii) : bool :=
  match c with Ascii _ _ _ _ _ _ _ b7 => negb b7 end.
Definition ascii_only (s : string) : bool := all_chars is_ascii s.

(** [s.split(sep)] for a non-empty separator: [skip] counts the
    characters of a separator still to be passed over, [cur] is the
    current piece, reversed. *)
Fixpoint split_go (sep : string) (skip : nat) (cur s : string) : list string :=
  match s with
  | EmptyString => [String.rev cur]
  | String c s' =>
      match skip with
      | S k => split_go sep k cur s'
      | O =>
          if String.prefix sep s
          then String.rev cur :: split_go sep (Nat.pred (String.length sep)) EmptyString s'
          else split_go sep 0 (String c cur) s'
      end
  end.
Definition split (sep s : string) : list string := split_go sep 0 EmptyString s.

(** The decimal digits of an integer, with its sign. *)
Definition str_int (n : Z) : string := NilZero.string_of_int (Z.to_int n).

(** The number of digits the interpreter reads or prints an integer
    with, at most: [sys.get_int_max_str_digits()], 4300 unless it is
    configured otherwise (Python 3.11 and later). *)
Definition INT_MAX_STR_DIGITS : Z := 4300.

(** [str(n)] and [f"{n}"] of an integer: its digits, unless they are
    more than the limit. *)
Definition int_to_str (n : Z) : Res string :=
  if 10 ^ INT_MAX_STR_DIGITS <=? Z.abs n then Raise DigitLimit
  else Ok (str_int n).

(** The digits of an integer literal: decimal digits, single underscores
    between them.  Returns the value and the unread rest. *)
Fixpoint int_body (acc : Z) (after_us : bool) (s : string) : option (Z * string) :=
  match s with
  | EmptyString => if after_us then None else Some (acc, EmptyString)
  | String c s' =>
      match Ascii.is_nat c with
      | Some d => int_body (10 * acc + Z.of_nat d) false s'
      | None =>
          if Ascii.eqb c "_"
          then (if after_us then None else int_body acc true s')
          else (if after_us then None else Some (acc, s))
      end
  end.

(** The number of digits [int_body] reads. *)
Fixpoint count_digits (s : string) : nat :=
  match s with
  | EmptyString => O
  | String c s' =>
      match Ascii.is_nat c with
      | Some _ => S (count_digits s')
      | None => if Ascii.eqb c "_" then count_digits s' else O
      end
  end.

Fixpoint skip_space (s : string) : string :=
  match s with
  | String c s' => if Ascii.is_space c then skip_space s' else s
  | EmptyString => EmptyString
  end.

(** [int(s)]: white space, a sign, the digits, white space.  The
    digits are counted as soon as they are read: more of them than the
    limit raise before what follows them is looked at. *)
Definition py_int (s : string) : Res Z :=
  let s1 := skip_space s in
  let '(neg, s2) :=
    match s1 with
    | String "+" r => (false, r)
    | String "-" r => (true, r)
    | _ => (false, s1)
    end in
  match s2 with
  | String c _ =>
      if is_digit c then
        match int_body 0 false s2 with
        | Some (n, rest) =>
            if INT_MAX_STR_DIGITS <? Z.of_nat (count_digits s2)
            then Raise DigitLimit
            else if all_chars Ascii.is_space rest
            then Ok (if neg then - n else n)
            else Raise (ValueError s)
        | None => Raise (ValueError s)
        end
      else Raise (ValueError s)
  | EmptyString => Raise (ValueError s)
  end.

(** ** Helper: convert durations to ISO 8601 *)

Definition to_iso_duration (duration_str : string) : Res string :=
  let parts := if String.eqb duration_str EmptyString then [] else split ":" duration_str in
  let iso := "PT" in
  match parts with
  | [h; m; s] =>
      hv ← py_int h;
      iso ← (if negb (hv =? 0)
             then hv' ← py_int h; hs ← int_to_str hv'; Ok (iso +:+ hs +:+ "H")
             else Ok iso);
      mv ← py_int m;
      ms ← int_to_str mv;
      sv ← py_int s;
      ss ← int_to_str sv;
      Ok (iso +:+ ms +:+ "M" +:+ ss +:+ "S")
  | [m; s] =>
      mv ← py_int m;
      ms ← int_to_str mv;
      sv ← py_int s;
      ss ← int_to_str sv;
      Ok (iso +:+ ms +:+ "M" +:+ ss +:+ "S")
  | [p] =>
      if isdigit p
      then pv ← py_int p; ps ← int_to_str pv; Ok (iso +:+ ps +:+ "S")
      else Ok (iso +:+ "0S")
  | _ => Ok (iso +:+ "0S")
  end.

(** ** Format helpers *)

(** The binary64 value of an integer, rounded to nearest even. *)
Definition b64_of_Z (n : Z) : spec_float := binary_normalize 53 1024 n 0 false.

(** [n / d] for an integer [n] and a float [d]: the integer is converted
    first, which fails when it is beyond the binary64 range. *)
Definition int_truediv (n : Z) (d : spec_float) : Res spec_float :=
  match b64_of_Z n with
  | S754_infinity _ => Raise OverflowError
  | x => Ok (SFdiv 53 1024 x d)
  end.

Definition round_half_even (num den : Z) : Z :=
  let q := num / den in
  match 2 * (num mod den) ?= den with
  | Lt => q
  | Gt => q + 1
  | Eq => if Z.even q then q else q + 1
  end.

(** [f"{x:.2f}"]: the exact binary value, rounded half-even to
    hundredths. *)
Definition fixed2 (x : spec_float) : string :=
  match x with
  | S754_nan => "nan"
  | S754_infinity s => if s then "-inf" else "inf"
  | S754_zero s => if s then "-0.00" else "0.00"
  | S754_finite s m e =>
      let h := match e with
               | Zneg p => round_half_even (100 * Zpos m) (2 ^ Zpos p)
               | _ => 100 * Zpos m * 2 ^ e
               end in
      (if s then "-" else EmptyString) +:+ str_int (h / 100) +:+ "."
        +:+ str_int (h mod 100 / 10) +:+ str_int (h mod 10)
  end.

Definition get_size_bytes (fmt : list (string * PyVal)) : PyVal :=
  py_or (py_or (dict_get fmt "filesize") (dict_get fmt "filesize_approx")) (PInt 0).

(** [format_size] on an integer byte count.  The comparisons of an
    integer with the literals [1e9], [1e6], [1e3] are exact. *)
Definition format_size (bytes_val : Z) : Res string :=
  if 10 ^ 9 <=? bytes_val then
    x ← int_truediv bytes_val (b64_of_Z (10 ^ 9)); Ok (fixed2 x +:+ " GB")
  else if 10 ^ 6 <=? bytes_val then
    x ← int_truediv bytes_val (b64_of_Z (10 ^ 6)); Ok (fixed2 x +:+ " MB")
  else if 10 ^ 3 <=? bytes_val then
    x ← int_truediv bytes_val (b64_of_Z (10 ^ 3)); Ok (fixed2 x +:+ " KB")
  else shown ← int_to_str bytes_val; Ok (shown +:+ " B").

(** [format_size] as it is called, on whatever [get_size_bytes] found:
    a Boolean counts as 0 or 1 and prints as its name, other values do
    not compare with a float. *)
Definition format_size_val (size : PyVal) : Res string :=
  match size with
  | PInt n => format_size n
  | PBool b => Ok ((if b then "True" else "False") +:+ " B")
  | v => Raise (NotOrderable v)
  end.

(** The [kind] of a descriptor, [None] when it has neither codec. *)
Definition format_kind (f : list (string * PyVal)) : option string :=
  let has_video := differs_from (dict_get f "vcodec") "none" in
  let has_audio := differs_from (dict_get f "acodec") "none" in
  if has_video && has_audio then Some "progressive"
  else if has_video then Some "video-only"
  else if has_audio then Some "audio-only"
  else None.

(** The dictionary appended for a descriptor [f] that is kept. *)
Definition format_record (f : list (string * PyVal)) (url_f : PyVal)
  (kind : string) (size : PyVal) (shown : string) : PyVal :=
  PDict [
    ("format_id", dict_get f "format_id");
    ("ext", dict_get f "ext");
    ("kind", PStr kind);
    ("filesize_bytes", size);
    ("filesize", PStr shown);
    ("width", dict_get f "width");
    ("height", dict_get f "height");
    ("fps", dict_get f "fps");
    ("abr", dict_get f "abr");
    ("asr", dict_get f "asr");
    ("url", url_f)].

(** One turn of the loop of [build_formats_list]: the entry appended
    for [f], if any. *)
Definition format_entry (f : PyVal) : Res (option PyVal) :=
  match f with
  | PDict d =>
      let url_f := dict_get d "url" in
      if negb (truthy url_f) then Ok None else
      match format_kind d with
      | None => Ok None
      | Some kind =>
          let size := get_size_bytes d in
          shown ← format_size_val size;
          Ok (Some (format_record d url_f kind size shown))
      end
  | _ => Raise (AttributeError f "get")
  end.

Fixpoint formats_loop (fs : list PyVal) (fmts : list PyVal) : Res (list PyVal) :=
  match fs with
  | [] => Ok fmts
  | f :: fs' =>
      e ← format_entry f;
      formats_loop fs' (fmts ++ option_list e)
  end.

Definition build_formats_list (info : PyVal) : Res (list PyVal) :=
  formats ← py_get_or info "formats" (PList []);
  fs ← py_iter formats;
  formats_loop fs [].

(** ** The world outside the repository *)

Inductive YdlOpts := ydl_opts_full | ydl_opts_meta.

(** What the blocking call [_run_extract_info] does on a worker of the
    pool: it returns the information or raises, [elapsed] seconds after
    it was submitted.  An exception is the [DownloadError] of the
    library, the built-in [TimeoutError], which
    [concurrent.futures.TimeoutError] is since Python 3.11, or another
    one; the first two come with their message. *)
Inductive Finished :=
  | Returned (info : PyVal)
  | RaisedDownloadError (msg : string)
  | RaisedTimeoutError
  | RaisedOther (msg : string).
Record YdlRun := { elapsed : Z; finished : Finished }.

(** What [YoutubeSearch(q, max_results=1).to_dict()] does. *)
Inductive SearchRun :=
  | SearchReturned (results : PyVal)
  | SearchRaised (msg : string).

(** The answers of the environment.  The extraction and search
    libraries are asked with the number of calls made before, so that
    the same question may be answered differently later.  The
    environment variables [META_TIMEOUT] and [FULL_INFO_TIMEOUT] are
    taken as already read by [int(os.environ.get(...))].  [evicts]
    is the choice of the cache backend when it prunes: the keys it
    drops at the [n]-th [set]. *)
Record Outside := {
  ydl_run : nat -> YdlOpts -> option string -> YdlRun;
  search_run : nat -> string -> SearchRun;
  evicts : nat -> string -> bool;
  exc_text : PyExc -> string;
  repr_text : PyVal -> string;
  unquote_plus : string -> string;
  META_TIMEOUT : Z;
  FULL_INFO_TIMEOUT : Z
}.

(** A call that left the application. *)
Inductive Call :=
  | YdlCall (opts : YdlOpts) (target : option string) (timeout : option Z)
  | SearchCall (q : string).

(** What a view function answers: a JSON body with a status, or an
    exception nobody caught, which Flask turns into its own 500 page. *)
Inductive Reply :=
  | Resp (status : Z) (body : PyVal)
  | Unhandled (e : PyExc).

Definition status_of (r : Reply) : Z :=
  match r with Resp c _ => c | Unhandled _ => 500 end.

(** What the cache holds: data stored by [cache.set] in a view, or a
    whole reply stored by the [cache.cached] decorator. *)
Inductive Cached :=
  | CData (v : PyVal)
  | CView (r : Reply).

(** The process: the entries of the in-memory cache with the time they
    expire at (0: never), the calls made so far, the time in seconds,
    and the number of times the cache was written to. *)
Record World := {
  cache : gmap string (Z * Cached);
  calls : list Call;
  clock : Z;
  sets : nat
}.

Definition set_cache (f : gmap string (Z * Cached) -> gmap string (Z * Cached))
  (w : World) : World :=
  {| cache := f (cache w); calls := calls w; clock := clock w; sets := sets w |}.
Definition log_call (c : Call) (w : World) : World :=
  {| cache := cache w; calls := calls w ++ [c]; clock := clock w; sets := sets w |}.
Definition advance (d : Z) (w : World) : World :=
  {| cache := cache w; calls := calls w; clock := clock w + d; sets := sets w |}.

(** ** Cache configuration (in-memory)

    The simple backend of flask-caching: [get] answers [None] for a
    missing or expired key, [set] stores with the default timeout 0,
    which never expires, or with the timeout given.  Before it stores,
    [set] prunes a cache that holds more entries than the threshold,
    500 as nothing else is configured: it drops entries, which ones
    being the choice of the backend. *)

Definition CACHE_DEFAULT_TIMEOUT : Z := 0.
Definition CACHE_THRESHOLD : nat := 500.

Definition cache_get (key : string) (w : World) : Cached :=
  match cache w !! key with
  | Some (expires, v) =>
      if (expires =? 0) || (clock w <? expires) then v else CData PNone
  | None => CData PNone
  end.

(** What is left of the cache after the pruning of a [set]. *)
Definition pruned (X : Outside) (w : World) : gmap string (Z * Cached) :=
  if (CACHE_THRESHOLD <? size (cache w))%nat
  then filter (fun kv => evicts X (sets w) kv.1 = false) (cache w)
  else cache w.

Definition cache_set (X : Outside) (key : string) (value : Cached)
  (timeout : option Z) (w : World) : World :=
  let timeout := default CACHE_DEFAULT_TIMEOUT timeout in
  let expires := if 0 <? timeout then clock w + timeout else timeout in
  {| cache := <[key := (expires, value)]> (pruned X w);
     calls := calls w; clock := clock w; sets := S (sets w) |}.

Definition cache_delete (key : string) (w : World) : World :=
  set_cache (delete key) w.

(** [if cached:] and [if cached is not None:] *)
Definition cached_truthy (c : Cached) : bool :=
  match c with CData v => truthy v | CView _ => true end.
Definition cached_is_not_None (c : Cached) : bool :=
  match c with CData PNone => false | _ => true end.

(** [jsonify(data)], for JSON data, as the values of [PyVal] are *)
Definition jsonify (data : PyVal) : Reply := Resp 200 data.
(** [jsonify(cached)]: a stored reply is not JSON data. *)
Definition jsonify_cached (c : Cached) : Reply :=
  match c with CData v => jsonify v | CView _ => Unhandled NotSerializable end.
(** [return jsonify(err), code] *)
Definition jsonify_with (err : PyVal) (code : option Z) : Reply :=
  Resp (default 200 code) err.

Definition error_body (msg : string) : PyVal := PDict [("error", PStr msg)].

(** A word between double quotes, for the messages that quote a
    parameter name. *)
Definition dquote : ascii := Ascii false true false false false true false false.
Definition quoted (s : string) : string :=
  String dquote (s +:+ String dquote EmptyString).

(** ** The request *)

(** [piece.partition('=')] without the separator *)
Fixpoint partition_eq (cur s : string) : string * string :=
  match s with
  | EmptyString => (String.rev cur, EmptyString)
  | String c s' =>
      if Ascii.eqb c "="
      then (String.rev cur, s')
      else partition_eq (String c cur) s'
  end.

(** [request.args] of the query string: the non-empty pieces between
    [&], cut at their first [=], both sides decoded. *)
Definition request_args (unq : string -> string) (query_string : string)
  : list (string * string) :=
  (fun piece => let '(k, v) := partition_eq EmptyString piece in (unq k, unq v))
    <$> filter (fun piece => piece <> EmptyString) (split "&" query_string).

(** [k in request.args], [request.args.get(k, '')], [request.args.get(k)] *)
Definition args_has (args : list (string * string)) (k : string) : bool :=
  bool_decide (is_Some (assoc k args)).
Definition args_get_or (args : list (string * string)) (k dflt : string) : string :=
  default dflt (assoc k args).
Definition args_get (args : list (string * string)) (k : string) : option string :=
  assoc k args.

(** [bool(x)] and [x or None] for an optional string *)
Definition given (x : option string) : bool :=
  match x with Some s => negb (String.eqb s EmptyString) | None => false end.
Definition nonempty (s : string) : bool := negb (String.eqb s EmptyString).
Definition or_None (s : string) : option string :=
  if nonempty s then Some s else None.

Section App.
Variable X : Outside.

(** [str(e)] for a caught exception: the message of the library, or the
    interpreter's text for one of its own. *)
Definition str_exc (e : PyExc) : string :=
  match e with
  | LibraryError msg => msg
  | _ => exc_text X e
  end.

(** [str(v)] *)
Definition py_str (v : PyVal) : Res string :=
  match v with
  | PNone => Ok "None"
  | PBool b => Ok (if b then "True" else "False")
  | PInt n => int_to_str n
  | PStr s => Ok s
  | _ => Ok (repr_text X v)
  end.

(** ** yt-dlp extraction on the thread pool *)

(** [extract_info]: the call is submitted, then [future.result] waits
    for [timeout] seconds at most, and not at all when the timeout is
    not positive; a task that takes exactly that long is taken to have
    finished.  The answer is the triple [(info, err, code)], the clock
    has moved by the time waited.  A [TimeoutError] the task raised
    itself is caught by the handler of the timeout. *)
Definition extract_info (url search_query : option string)
  (opts : option YdlOpts) (timeout : option Z) (w : World)
  : PyVal * PyVal * option Z * World :=
  let ydl_opts := default ydl_opts_full opts in
  let target :=
    if given search_query
    then Some ("ytsearch:" +:+ default EmptyString search_query)
    else url in
  let run := ydl_run X (length (calls w)) ydl_opts target in
  let w := log_call (YdlCall ydl_opts target timeout) w in
  let timed_out :=
    match timeout with Some t => t <? elapsed run | None => false end in
  if timed_out then
    (PNone, error_body "yt-dlp timed out", Some 504,
     advance (Z.max 0 (default 0 timeout)) w)
  else
    let w := advance (elapsed run) w in
    match finished run with
    | Returned info =>
        match info with
        | PDict d =>
            if given search_query && bool_decide (is_Some (assoc "entries" d))
            then
              let entries := py_or (dict_get d "entries") (PList []) in
              if negb (truthy entries)
              then (PNone, error_body "No search results", Some 404, w)
              else match py_item0 entries with
                   | Ok first => (first, PNone, None, w)
                   | Raise e => (PNone, error_body (str_exc e), Some 500, w)
                   end
            else (info, PNone, None, w)
        | _ => (info, PNone, None, w)
        end
    | RaisedDownloadError msg => (PNone, error_body msg, Some 500, w)
    | RaisedTimeoutError => (PNone, error_body "yt-dlp timed out", Some 504, w)
    | RaisedOther msg => (PNone, error_body msg, Some 500, w)
    end.

(** ** Flask routes *)

Definition home (query_string : string) (w : World) : Reply * World :=
  let args := request_args (unquote_plus X) query_string in
  let key := "home" in
  let w := if args_has args "latest" then cache_delete key w else w in
  let data := cache_get key w in
  if cached_truthy data then (jsonify_cached data, w) else
  let data := PDict [("message", PStr "âœ… YouTube API is alive")] in
  let w := cache_set X key (CData data) None w in
  (jsonify data, w).

(** [to_iso_duration] on a value that need not be a string: a false
    value has no parts, another value has no [split]. *)
Definition to_iso_duration_val (v : PyVal) : Res string :=
  if negb (truthy v) then Ok "PT0S" else
  match v with
  | PStr s => to_iso_duration s
  | _ => Raise (AttributeError v "split")
  end.

(** [v.split(sep)[-1]] *)
Definition split_last (v : PyVal) (sep : string) : Res string :=
  match v with
  | PStr s => Ok (List.last (split sep s) EmptyString)
  | _ => Raise (AttributeError v "split")
  end.

(** The search branch of [api_fast_meta], inside its [try]. *)
Definition fast_meta_search (results : PyVal) : Res PyVal :=
  if truthy results then
    vid ← py_item0 results;
    title ← py_get vid "title";
    suffix ← py_get vid "url_suffix";
    video_id ← split_last suffix "v=";
    dur ← py_get_or vid "duration" (PStr EmptyString);
    duration ← to_iso_duration_val dur;
    thumbs ← py_get_or vid "thumbnails" (PList [PNone]);
    thumbnail ← py_item0 thumbs;
    Ok (PDict [
      ("title", title);
      ("link", PStr ("https://www.youtube.com/watch?v=" +:+ video_id));
      ("duration", PStr duration);
      ("thumbnail", thumbnail)])
  else Ok PNone.

(** The URL branch of [api_fast_meta] after a successful extraction. *)
Definition fast_meta_url (info : PyVal) : Res PyVal :=
  title ← py_get info "title";
  link ← py_get info "webpage_url";
  dur ← py_get info "duration";
  text ← py_str dur;
  duration ← to_iso_duration text;
  thumbnail ← py_get info "thumbnail";
  Ok (PDict [
    ("title", title);
    ("link", link);
    ("duration", PStr duration);
    ("thumbnail", thumbnail)]).

(** The end of the [try] block of [api_fast_meta], and its handler. *)
Definition fast_meta_finish (key : string) (result : Res PyVal) (w : World)
  : Reply * World :=
  match result with
  | Ok result =>
      if negb (truthy result)
      then (Resp 404 (error_body "No results"), w)
      else
        let w := cache_set X key (CData result) None w in
        (jsonify result, w)
  | Raise e => (Resp 500 (error_body (str_exc e)), w)
  end.

Definition api_fast_meta (query_string : string) (w : World) : Reply * World :=
  let args := request_args (unquote_plus X) query_string in
  let q := strip (args_get_or args "search" EmptyString) in
  let u := strip (args_get_or args "url" EmptyString) in
  let key := "fast_meta:" +:+ q +:+ ":" +:+ u in
  let w := if args_has args "latest" then cache_delete key w else w in
  let cached := cache_get key w in
  if cached_is_not_None cached then (jsonify_cached cached, w) else
  if negb (nonempty q) && negb (nonempty u) then
    (Resp 400 (error_body ("Provide either " +:+ quoted "search" +:+ " or " +:+ quoted "url" +:+ " parameter")), w)
  else
  if nonempty q then
    let run := search_run X (length (calls w)) q in
    let w := log_call (SearchCall q) w in
    match run with
    | SearchReturned results => fast_meta_finish key (fast_meta_search results) w
    | SearchRaised msg => fast_meta_finish key (Raise (LibraryError msg)) w
    end
  else
    let meta_timeout := META_TIMEOUT X in
    let '(info, err, code, w) :=
      extract_info (Some u) None (Some ydl_opts_meta) (Some meta_timeout) w in
    if truthy err then (jsonify_with err code, w) else
    fast_meta_finish key (fast_meta_url info) w.

(** A list comprehension whose element expression may raise. *)
Fixpoint res_map {A B} (f : A -> Res B) (l : list A) : Res (list B) :=
  match l with
  | [] => Ok []
  | a :: l' => b ← f a; bs ← res_map f l'; Ok (b :: bs)
  end.

Definition suggestion (rel : PyVal) : Res PyVal :=
  id ← py_get rel "id";
  title ← py_get rel "title";
  page ← py_get rel "webpage_url";
  url ← (if truthy page then Ok page else py_get rel "url");
  thumbs ← py_get_or rel "thumbnails" (PList [PDict []]);
  thumb ← py_item0 thumbs;
  thumbnail ← py_get thumb "url";
  Ok (PDict [("id", id); ("title", title); ("url", url);
             ("thumbnail", thumbnail)]).

(** The body of [api_all] after a successful extraction. *)
Definition all_data (info : PyVal) : Res PyVal :=
  fmts ← build_formats_list info;
  related ← py_get_or info "related" (PList []);
  rels ← py_iter related;
  suggestions ← res_map suggestion rels;
  title ← py_get info "title";
  video_url ← py_get info "webpage_url";
  duration ← py_get info "duration";
  upload_date ← py_get info "upload_date";
  view_count ← py_get info "view_count";
  like_count ← py_get info "like_count";
  thumbnail ← py_get info "thumbnail";
  description ← py_get info "description";
  tags ← py_get info "tags";
  is_live ← py_get info "is_live";
  age_limit ← py_get info "age_limit";
  average_rating ← py_get info "average_rating";
  uploader ← py_get info "uploader";
  uploader_url ← py_get info "uploader_url";
  channel_url ← py_get info "channel_url";
  uploader_id ← py_get info "uploader_id";
  Ok (PDict [
    ("title", title);
    ("video_url", video_url);
    ("duration", duration);
    ("upload_date", upload_date);
    ("view_count", view_count);
    ("like_count", like_count);
    ("thumbnail", thumbnail);
    ("description", description);
    ("tags", tags);
    ("is_live", is_live);
    ("age_limit", age_limit);
    ("average_rating", average_rating);
    ("channel", PDict [
       ("name", uploader);
       ("url", py_or uploader_url channel_url);
       ("id", uploader_id)]);
    ("formats", PList fmts);
    ("suggestions", PList suggestions)]).

(** A view without [try]: an exception of the body is not caught. *)
Definition uncaught (body : Res PyVal) : Reply :=
  match body with Ok data => jsonify data | Raise e => Unhandled e end.

Definition api_all (query_string : string) (w : World) : Reply * World :=
  let args := request_args (unquote_plus X) query_string in
  let q := strip (args_get_or args "search" EmptyString) in
  let u := strip (args_get_or args "url" EmptyString) in
  if negb (nonempty q || nonempty u) then
    (Resp 400 (error_body ("Provide " +:+ quoted "url" +:+ " or " +:+ quoted "search")), w)
  else
  let full_timeout := FULL_INFO_TIMEOUT X in
  let '(info, err, code, w) :=
    extract_info (or_None u) (or_None q) (Some ydl_opts_full) (Some full_timeout) w in
  if truthy err then (jsonify_with err code, w) else
  (uncaught (all_data info), w).

Definition meta_keys : list string :=
  ["id"; "title"; "webpage_url"; "duration"; "upload_date";
   "view_count"; "like_count"; "thumbnail"; "description";
   "tags"; "is_live"; "age_limit"; "average_rating";
   "uploader"; "uploader_url"; "uploader_id"].

Definition meta_data (info : PyVal) : Res PyVal :=
  fields ← res_map (fun k => v ← py_get info k; Ok (k, v)) meta_keys;
  Ok (PDict [("metadata", PDict fields)]).

Definition api_meta (query_string : string) (w : World) : Reply * World :=
  let args := request_args (unquote_plus X) query_string in
  let q := strip (args_get_or args "search" EmptyString) in
  let u := strip (args_get_or args "url" EmptyString) in
  let key := "meta:" +:+ q +:+ ":" +:+ u in
  let w := if args_has args "latest" then cache_delete key w else w in
  let cached := cache_get key w in
  if cached_truthy cached then (jsonify_cached cached, w) else
  if negb (nonempty q || nonempty u) then
    (Resp 400 (error_body ("Provide " +:+ quoted "url" +:+ " or " +:+ quoted "search")), w)
  else
  let meta_timeout := META_TIMEOUT X in
  let '(info, err, code, w) :=
    extract_info (or_None u) (or_None q) (Some ydl_opts_meta) (Some meta_timeout) w in
  if truthy err then (jsonify_with err code, w) else
  match meta_data info with
  | Ok data =>
      let w := cache_set X key (CData data) None w in
      (jsonify data, w)
  | Raise e => (Unhandled e, w)
  end.

(** The end of a [try] block that stores [data], then returns it, and
    the handler of the block for an exception of the shaping. *)
Definition store_or_500 (key : string) (data : Res PyVal) (w : World)
  : Reply * World :=
  match data with
  | Ok data =>
      let w := cache_set X key (CData data) None w in
      (jsonify data, w)
  | Raise e => (Resp 500 (error_body (str_exc e)), w)
  end.

Definition channel_data (info : PyVal) : Res PyVal :=
  id ← py_get info "id";
  name ← py_get info "uploader";
  url ← py_get info "webpage_url";
  description ← py_get info "description";
  subscriber_count ← py_get info "subscriber_count";
  followers ← py_get info "channel_follower_count";
  video_count ← (if truthy followers then Ok followers else py_get info "video_count");
  thumbnails ← py_get info "thumbnails";
  Ok (PDict [
    ("id", id);
    ("name", name);
    ("url", url);
    ("description", description);
    ("subscriber_count", subscriber_count);
    ("video_count", video_count);
    ("thumbnails", thumbnails)]).

Definition api_channel (query_string : string) (w : World) : Reply * World :=
  let args := request_args (unquote_plus X) query_string in
  let cid := strip (args_get_or args "id" EmptyString) in
  let cu := strip (args_get_or args "url" EmptyString) in
  let key := "channel:" +:+ (if nonempty cid then cid else cu) in
  let w := if args_has args "latest" then cache_delete key w else w in
  let cached := cache_get key w in
  if cached_truthy cached then (jsonify_cached cached, w) else
  if negb (nonempty cid || nonempty cu) then
    (Resp 400 (error_body ("Provide " +:+ quoted "url" +:+ " or " +:+ quoted "id"
                             +:+ " parameter for channel")), w)
  else
  let '(info, err, code, w) :=
    extract_info (Some (if nonempty cid then cid else cu)) None
      (Some ydl_opts_meta) (Some 20) w in
  if truthy err then (jsonify_with err code, w) else
  store_or_500 key (channel_data info) w.

Definition playlist_video (e : PyVal) : Res PyVal :=
  id ← py_get e "id";
  title ← py_get e "title";
  url ← py_get e "webpage_url";
  duration ← py_get e "duration";
  Ok (PDict [("id", id); ("title", title); ("url", url); ("duration", duration)]).

Definition playlist_data (info : PyVal) : Res PyVal :=
  entries ← py_get_or info "entries" (PList []);
  es ← py_iter entries;
  videos ← res_map playlist_video es;
  id ← py_get info "id";
  title ← py_get info "title";
  url ← py_get info "webpage_url";
  item_count ← py_get info "playlist_count";
  Ok (PDict [
    ("id", id);
    ("title", title);
    ("url", url);
    ("item_count", item_count);
    ("videos", PList videos)]).

Definition api_playlist (query_string : string) (w : World) : Reply * World :=
  let args := request_args (unquote_plus X) query_string in
  let pid := strip (args_get_or args "id" EmptyString) in
  let pu := strip (args_get_or args "url" EmptyString) in
  let key := "playlist:" +:+ (if nonempty pid then pid else pu) in
  let w := if args_has args "latest" then cache_delete key w else w in
  let cached := cache_get key w in
  if cached_truthy cached then (jsonify_cached cached, w) else
  if negb (nonempty pid || nonempty pu) then
    (Resp 400 (error_body ("Provide " +:+ quoted "url" +:+ " or " +:+ quoted "id"
                             +:+ " parameter for playlist")), w)
  else
  let '(info, err, code, w) :=
    extract_info (Some (if nonempty pid then pid else pu)) None
      (Some ydl_opts_full) (Some 60) w in
  if truthy err then (jsonify_with err code, w) else
  store_or_500 key (playlist_data info) w.

(** Instagram, Twitter, TikTok and Facebook: the same pattern, the
    information is stored and returned as it is. *)

Definition api_instagram (query_string : string) (w : World) : Reply * World :=
  let args := request_args (unquote_plus X) query_string in
  let u := strip (args_get_or args "url" EmptyString) in
  let key := "instagram:" +:+ u in
  let w := if args_has args "latest" then cache_delete key w else w in
  let cached := cache_get key w in
  if cached_truthy cached then (jsonify_cached cached, w) else
  if negb (nonempty u) then
    (Resp 400 (error_body ("Provide " +:+ quoted "url" +:+ " parameter for Instagram")), w)
  else
  let '(info, err, code, w) :=
    extract_info (Some u) None (Some ydl_opts_meta) (Some 20) w in
  if truthy err then (jsonify_with err code, w) else
  store_or_500 key (Ok info) w.

Definition api_twitter (query_string : string) (w : World) : Reply * World :=
  let args := request_args (unquote_plus X) query_string in
  let u := strip (args_get_or args "url" EmptyString) in
  let key := "twitter:" +:+ u in
  let w := if args_has args "latest" then cache_delete key w else w in
  let cached := cache_get key w in
  if cached_truthy cached then (jsonify_cached cached, w) else
  if negb (nonempty u) then
    (Resp 400 (error_body ("Provide " +:+ quoted "url" +:+ " parameter for Twitter")), w)
  else
  let '(info, err, code, w) :=
    extract_info (Some u) None (Some ydl_opts_meta) (Some 20) w in
  if truthy err then (jsonify_with err code, w) else
  store_or_500 key (Ok info) w.

Definition api_tiktok (query_string : string) (w : World) : Reply * World :=
  let args := request_args (unquote_plus X) query_string in
  let u := strip (args_get_or args "url" EmptyString) in
  let key := "tiktok:" +:+ u in
  let w := if args_has args "latest" then cache_delete key w else w in
  let cached := cache_get key w in
  if cached_truthy cached then (jsonify_cached cached, w) else
  if negb (nonempty u) then
    (Resp 400 (error_body ("Provide " +:+ quoted "url" +:+ " parameter for TikTok")), w)
  else
  let '(info, err, code, w) :=
    extract_info (Some u) None (Some ydl_opts_meta) (Some 20) w in
  if truthy err then (jsonify_with err code, w) else
  store_or_500 key (Ok info) w.

Definition api_facebook (query_string : string) (w : World) : Reply * World :=
  let args := request_args (unquote_plus X) query_string in
  let u := strip (args_get_or args "url" EmptyString) in
  let key := "facebook:" +:+ u in
  let w := if args_has args "latest" then cache_delete key w else w in
  let cached := cache_get key w in
  if cached_truthy cached then (jsonify_cached cached, w) else
  if negb (nonempty u) then
    (Resp 400 (error_body ("Provide " +:+ quoted "url" +:+ " parameter for Facebook")), w)
  else
  let '(info, err, code, w) :=
    extract_info (Some u) None (Some ydl_opts_meta) (Some 20) w in
  if truthy err then (jsonify_with err code, w) else
  store_or_500 key (Ok info) w.

(** ** Stream endpoints *)

Definition STREAM_TIMEOUT : Z := 5 * 3600.

(** [request.full_path] *)
Definition full_path (path query_string : string) : string :=
  path +:+ "?" +:+ query_string.

(** The decorator [cache.cached(timeout, key_prefix)] of flask-caching
    around a view: whatever the cache holds for the key is returned as
    the reply, otherwise the view runs and what it returns is stored.
    An exception of the view leaves through the decorator.  A view may
    also return JSON data, which Flask makes a reply of. *)
Definition make_response (c : Cached) : Reply :=
  match c with
  | CView rv => rv
  | CData (PDict _ as v) | CData (PList _ as v) | CData (PStr _ as v) => Resp 200 v
  | CData v => Unhandled (NotAResponse v)
  end.

Definition cache_cached (timeout : Z) (key : string)
  (view : World -> Reply * World) (w : World) : Reply * World :=
  let rv := cache_get key w in
  if cached_is_not_None rv then (make_response rv, w) else
  let '(rv, w) := view w in
  match rv with
  | Unhandled _ => (rv, w)
  | _ => (rv, cache_set X key (CView rv) (Some timeout) w)
  end.

Definition formats_data (info : PyVal) : Res PyVal :=
  fmts ← build_formats_list info;
  Ok (PDict [("formats", PList fmts)]).

(** The view under the decorator. *)
Definition api_download_view (query_string : string) (w : World) : Reply * World :=
  let args := request_args (unquote_plus X) query_string in
  let url := args_get args "url" in
  let search := args_get args "search" in
  if negb (given url || given search) then
    (Resp 400 (error_body ("Provide " +:+ quoted "url" +:+ " or " +:+ quoted "search")), w)
  else
  let '(info, err, code, w) :=
    extract_info url search (Some ydl_opts_full) None w in
  if truthy err then (jsonify_with err code, w) else
  (uncaught (formats_data info), w).

Definition api_download (query_string : string) (w : World) : Reply * World :=
  cache_cached STREAM_TIMEOUT
    ("download:" +:+ full_path "/download" query_string)
    (api_download_view query_string) w.

(** [f['kind'] in kinds] for an entry of [build_formats_list] *)
Definition kind_in (kinds : list string) (f : PyVal) : bool :=
  match f with
  | PDict d =>
      match dict_get d "kind" with
      | PStr k => existsb (String.eqb k) kinds
      | _ => false
      end
  | _ => false
  end.

Definition kinds_data (name : string) (kinds : list string) (info : PyVal)
  : Res PyVal :=
  fmts ← build_formats_list info;
  Ok (PDict [(name, PList (List.filter (kind_in kinds) fmts))]).

Definition api_audio (query_string : string) (w : World) : Reply * World :=
  let args := request_args (unquote_plus X) query_string in
  let url := args_get args "url" in
  let search := args_get args "search" in
  if negb (given url || given search) then
    (Resp 400 (error_body ("Provide " +:+ quoted "url" +:+ " or " +:+ quoted "search")), w)
  else
  let '(info, err, code, w) :=
    extract_info url search (Some ydl_opts_full) (Some 30) w in
  if truthy err then (jsonify_with err code, w) else
  (uncaught (kinds_data "audio_formats" ["audio-only"; "progressive"] info), w).

Definition api_video (query_string : string) (w : World) : Reply * World :=
  let args := request_args (unquote_plus X) query_string in
  let url := args_get args "url" in
  let search := args_get args "search" in
  if negb (given url || given search) then
    (Resp 400 (error_body ("Provide " +:+ quoted "url" +:+ " or " +:+ quoted "search")), w)
  else
  let '(info, err, code, w) :=
    extract_info url search (Some ydl_opts_full) (Some 30) w in
  if truthy err then (jsonify_with err code, w) else
  (uncaught (kinds_data "video_formats" ["video-only"; "progressive"] info), w).

(** ** The routes of the application *)

Inductive Route :=
  | Home | FastMeta | All | Meta | Channel | Playlist
  | Instagram | Twitter | TikTok | Facebook
  | Download | Audio | Video.

Definition handle (r : Route) : string -> World -> Reply * World :=
  match r with
  | Home => home
  | FastMeta => api_fast_meta
  | All => api_all
  | Meta => api_meta
  | Channel => api_channel
  | Playlist => api_playlist
  | Instagram => api_instagram
  | Twitter => api_twitter
  | TikTok => api_tiktok
  | Facebook => api_facebook
  | Download => api_download
  | Audio => api_audio
  | Video => api_video
  end.

(** The process starts with an empty cache; requests are served one
    after the other, and time passes between them. *)
Definition start (t : Z) : World :=
  {| cache := ∅; calls := []; clock := t; sets := 0 |}.

Inductive reachable : World -> Prop :=
  | reach_start t : reachable (start t)
  | reach_request w r query_string :
      reachable w -> reachable (handle r query_string w).2
  | reach_wait w d : reachable w -> 0 <= d -> reachable (advance d w).

(** ** The routes at a glance

    What each view reads from the request, as the views above compute
    it: its stripped parameters, the key it looks up in the cache, and
    whether its required parameters are missing. *)

Definition arg (query_string k : string) : string :=
  strip (args_get_or (request_args (unquote_plus X) query_string) k EmptyString).
Definition raw_arg (query_string k : string) : option string :=
  args_get (request_args (unquote_plus X) query_string) k.
Definition latest (query_string : string) : bool :=
  args_has (request_args (unquote_plus X) query_string) "latest".

Definition first_of (a b : string) : string := if nonempty a then a else b.

Definition cache_key (r : Route) (qs : string) : option string :=
  match r with
  | Home => Some "home"
  | FastMeta => Some ("fast_meta:" +:+ arg qs "search" +:+ ":" +:+ arg qs "url")
  | Meta => Some ("meta:" +:+ arg qs "search" +:+ ":" +:+ arg qs "url")
  | Channel => Some ("channel:" +:+ first_of (arg qs "id") (arg qs "url"))
  | Playlist => Some ("playlist:" +:+ first_of (arg qs "id") (arg qs "url"))
  | Instagram => Some ("instagram:" +:+ arg qs "url")
  | Twitter => Some ("twitter:" +:+ arg qs "url")
  | TikTok => Some ("tiktok:" +:+ arg qs "url")
  | Facebook => Some ("facebook:" +:+ arg qs "url")
  | Download => Some ("download:" +:+ full_path "/download" qs)
  | All | Audio | Video => None
  end.

Definition missing_params (r : Route) (qs : string) : bool :=
  match r with
  | Home => false
  | FastMeta | All | Meta =>
      negb (nonempty (arg qs "search") || nonempty (arg qs "url"))
  | Channel | Playlist =>
      negb (nonempty (arg qs "id") || nonempty (arg qs "url"))
  | Instagram | Twitter | TikTok | Facebook => negb (nonempty (arg qs "url"))
  | Download | Audio | Video =>
      negb (given (raw_arg qs "url") || given (raw_arg qs "search"))
  end.

(** The routes that look the cache up themselves and honour [latest]. *)
Definition keeps_data (r : Route) : bool :=
  match r with
  | Home | FastMeta | Meta | Channel | Playlist
  | Instagram | Twitter | TikTok | Facebook => true
  | _ => false
  end.

(** What a route asks [extract_info] for, once its parameters are
    there and the cache has not answered: [url], [search_query], the
    options and the timeout. *)
Definition gateway_args (r : Route) (qs : string)
  : option (option string * option string * YdlOpts * option Z) :=
  match r with
  | Home => None
  | FastMeta =>
      if nonempty (arg qs "search") then None
      else Some (Some (arg qs "url"), None, ydl_opts_meta, Some (META_TIMEOUT X))
  | All =>
      Some (or_None (arg qs "url"), or_None (arg qs "search"), ydl_opts_full,
            Some (FULL_INFO_TIMEOUT X))
  | Meta =>
      Some (or_None (arg qs "url"), or_None (arg qs "search"), ydl_opts_meta,
            Some (META_TIMEOUT X))
  | Channel =>
      Some (Some (first_of (arg qs "id") (arg qs "url")), None, ydl_opts_meta,
            Some 20)
  | Playlist =>
      Some (Some (first_of (arg qs "id") (arg qs "url")), None, ydl_opts_full,
            Some 60)
  | Instagram | Twitter | TikTok | Facebook =>
      Some (Some (arg qs "url"), None, ydl_opts_meta, Some 20)
  | Download =>
      Some (raw_arg qs "url", raw_arg qs "search", ydl_opts_full, None)
  | Audio | Video =>
      Some (raw_arg qs "url", raw_arg qs "search", ydl_opts_full, Some 30)
  end.

(** The target [extract_info] passes on, and the call this makes. *)
Definition gateway_target (url search_query : option string) : option string :=
  if given search_query
  then Some ("ytsearch:" +:+ default EmptyString search_query)
  else url.
Definition gateway_call (r : Route) (qs : string) : option Call :=
  match gateway_args r qs with
  | Some (url, search_query, opts, timeout) =>
      Some (YdlCall opts (gateway_target url search_query) timeout)
  | None => None
  end.

(** The world after a route has honoured [latest], and whether the
    cache then answers the request. *)
Definition after_bypass (r : Route) (qs : string) (w : World) : World :=
  match cache_key r qs with
  | Some key =>
      if keeps_data r then (if latest qs then cache_delete key w else w) else w
  | None => w
  end.

Definition answers_from_cache (r : Route) (qs : string) (w : World) : bool :=
  match cache_key r qs with
  | Some key =>
      let cached := cache_get key (after_bypass r qs w) in
      match r with
      | FastMeta | Download => cached_is_not_None cached
      | _ => cached_truthy cached
      end
  | None => false
  end.

(** ** The vocabulary of the properties *)

(** The run the environment answers a call of [extract_info] with. *)
Definition gateway_run (url search_query : option string)
  (opts : option YdlOpts) (w : World) : YdlRun :=
  ydl_run X (length (calls w)) (default ydl_opts_full opts)
    (gateway_target url search_query).

Definition timed_out (timeout : option Z) (run : YdlRun) : bool :=
  match timeout with Some t => t <? elapsed run | None => false end.

(** An entry written by route [r] for the request [qs]: data that never
    expires, written by a route that keeps data for a request with its
    parameters, or a reply of [/download], which for a request without
    parameters is the 400. *)
Definition written_by (r : Route) (qs : string) (e : Z) (c : Cached) : Prop :=
  (keeps_data r = true /\ missing_params r qs = false /\ e = 0
   /\ exists v, c = CData v)
  \/ (r = Download
      /\ exists rv, c = CView rv
         /\ (missing_params Download qs = true ->
             exists msg, rv = Resp 400 (error_body msg))).

Definition cache_ok (w : World) : Prop :=
  forall key e c, cache w !! key = Some (e, c) ->
    exists r qs, cache_key r qs = Some key /\ written_by r qs e c.

End App.

(** ** Sample surroundings, for the examples *)

Definition sample_progressive : list (string * PyVal) :=
  [("format_id", PStr "18"); ("url", PStr "https://cdn/18");
   ("vcodec", PStr "avc1"); ("acodec", PStr "mp4a");
   ("filesize", PInt 2500000)].
Definition sample_audio_only : list (string * PyVal) :=
  [("format_id", PStr "140"); ("url", PStr "https://cdn/140");
   ("vcodec", PStr "none"); ("acodec", PStr "mp4a")].
Definition sample_storyboard : list (string * PyVal) :=
  [("format_id", PStr "sb0"); ("vcodec", PStr "none"); ("acodec", PStr "none")].

(** What the library answers the call number [n] with. *)
Definition sample_info (n : nat) : PyVal :=
  PDict [("id", PStr "abc"); ("title", PStr "clip");
         ("view_count", PInt (Z.of_nat n));
         ("formats", PList [PDict sample_progressive;
                            PDict sample_audio_only;
                            PDict sample_storyboard])].

Definition sample_outside : Outside := {|
  ydl_run := fun n _ _ => {| elapsed := 2; finished := Returned (sample_info n) |};
  search_run := fun _ _ => SearchReturned (PList []);
  evicts := fun _ _ => false;
  exc_text := fun _ => "error";
  repr_text := fun _ => "value";
  unquote_plus := fun s => s;
  META_TIMEOUT := 6;
  FULL_INFO_TIMEOUT := 30
|}.

Definition slow_outside : Outside := {|
  ydl_run := fun n _ _ => {| elapsed := 45; finished := Returned (sample_info n) |};
  search_run := fun _ _ => SearchReturned (PList []);
  evicts := fun _ _ => false;
  exc_text := fun _ => "error";
  repr_text := fun _ => "value";
  unquote_plus := fun s => s;
  META_TIMEOUT := 6;
  FULL_INFO_TIMEOUT := 30
|}.

Definition search_outside : Outside := {|
  ydl_run := fun n _ _ =>
    {| elapsed := 2;
       finished := Returned (PDict [("entries",
                     PList [sample_info 7; sample_info 8])]) |};
  search_run := fun _ _ => SearchReturned (PList []);
  evicts := fun _ _ => false;
  exc_text := fun _ => "error";
  repr_text := fun _ => "value";
  unquote_plus := fun s => s;
  META_TIMEOUT := 6;
  FULL_INFO_TIMEOUT := 30
|}.

Definition empty_outside : Outside := {|
  ydl_run := fun n _ _ =>
    {| elapsed := 2; finished := Returned (PDict [("entries", PList [])]) |};
  search_run := fun _ _ => SearchReturned (PList []);
  evicts := fun _ _ => false;
  exc_text := fun _ => "error";
  repr_text := fun _ => "value";
  unquote_plus := fun s => s;
  META_TIMEOUT := 6;
  FULL_INFO_TIMEOUT := 30
|}.

Definition failing_outside : Outside := {|
  ydl_run := fun n _ _ =>
    {| elapsed := 1; finished := RaisedDownloadError "ERROR: Unsupported URL" |};
  search_run := fun _ _ => SearchRaised "no network";
  evicts := fun _ _ => false;
  exc_text := fun _ => "error";
  repr_text := fun _ => "value";
  unquote_plus := fun s => s;
  META_TIMEOUT := 6;
  FULL_INFO_TIMEOUT := 30
|}.

(** What [/api/meta] answers for [sample_info 0]. *)
Definition sample_meta_body : PyVal :=
  PDict [("metadata", PDict [
    ("id", PStr "abc"); ("title", PStr "clip"); ("webpage_url", PNone);
    ("duration", PNone); ("upload_date", PNone); ("view_count", PInt 0);
    ("like_count", PNone); ("thumbnail", PNone); ("description", PNone);
    ("tags", PNone); ("is_live", PNone); ("age_limit", PNone);
    ("average_rating", PNone); ("uploader", PNone); ("uploader_url", PNone);
    ("uploader_id", PNone)])].

(** A piece of a colon-delimited string. *)
Definition no_colon (s : string) : bool :=
  all_chars (fun c => negb (Ascii.eqb c ":")) s.

(** The number a string of decimal digits denotes. *)
Fixpoint decimal_from (acc : Z) (s : string) : Z :=
  match s with
  | EmptyString => acc
  | String c s' =>
      decimal_from (10 * acc + Z.of_nat (default 0%nat (Ascii.is_nat c))) s'
  end.
Definition decimal (s : string) : Z := decimal_from 0 s.

(** The entries that were not dropped. *)
Definition kept (es : list (option PyVal)) : list PyVal :=
  flat_map option_list es.

(** The route a key of the cache belongs to. *)
Fixpoint starts_with (p s : string) : bool :=
  match p with
  | EmptyString => true
  | String a p' =>
      match s with
      | String b s' => Ascii.eqb a b && starts_with p' s'
      | EmptyString => false
      end
  end.

Definition route_of_key (key : string) : option Route :=
  if starts_with "home" key then Some Home
  else if starts_with "fast_meta:" key then Some FastMeta
  else if starts_with "meta:" key then Some Meta
  else if starts_with "channel:" key then Some Channel
  else if starts_with "playlist:" key then Some Playlist
  else if starts_with "instagram:" key then Some Instagram
  else if starts_with "twitter:" key then Some Twitter
  else if starts_with "tiktok:" key then Some TikTok
  else if starts_with "facebook:" key then Some Facebook
  else if starts_with "download:" key then Some Download
  else None.

Definition sample_video_only : list (string * PyVal) :=
  [("format_id", PStr "137"); ("url", PStr "https://cdn/137");
   ("vcodec", PStr "avc1"); ("acodec", PStr "none");
   ("filesize", PInt 2500000)].

Definition sample_no_codecs : list (string * PyVal) :=
  [("format_id", PStr "hls"); ("url", PStr "https://cdn/hls");
   ("acodec", PNone)].

(** What a caller reads from an entry [e] of the list of formats, field
    by field: the fields of the descriptor [d], its kind and its size. *)
Definition entry_carries (e : PyVal) (d : list (string * PyVal))
  (kind shown : string) : Prop :=
  py_get e "format_id" = Ok (dict_get d "format_id")
  /\ py_get e "ext" = Ok (dict_get d "ext")
  /\ py_get e "kind" = Ok (PStr kind)
  /\ py_get e "filesize_bytes" = Ok (get_size_bytes d)
  /\ py_get e "filesize" = Ok (PStr shown)
  /\ py_get e "width" = Ok (dict_get d "width")
  /\ py_get e "height" = Ok (dict_get d "height")
  /\ py_get e "fps" = Ok (dict_get d "fps")
  /\ py_get e "abr" = Ok (dict_get d "abr")
  /\ py_get e "asr" = Ok (dict_get d "asr")
  /\ py_get e "url" = Ok (dict_get d "url").

(** The number of occurrences of a character. *)
Fixpoint count_char (c : ascii) (s : string) : nat :=
  match s with
  | EmptyString => O
  | String a s' => (if Ascii.eqb a c then 1 else 0)%nat + count_char c s'
  end.

(** ** Further vocabulary *)

(** Information about one video, as [/api/fast-meta] reads it. *)
Definition sample_page : list (string * PyVal) :=
  [("title", PStr "clip"); ("webpage_url", PStr "https://youtu.be/abc");
   ("duration", PInt 3725); ("thumbnail", PStr "https://img/abc.jpg")].


(** The kinds of a format. *)
Definition format_kinds : list string := ["progressive"; "video-only"; "audio-only"].

(** An entry of the list [build_formats_list] returns: the record of a
    descriptor [d] that has a stream URL, one of the three kinds and a
    size that formats; the entry has the fields of [d], that kind and
    that size. *)
Definition entry_of (d : list (string * PyVal)) (e : PyVal) : Prop :=
  exists kind shown,
    entry_carries e d kind shown
    /\ e = format_record d (dict_get d "url") kind (get_size_bytes d) shown
    /\ truthy (dict_get d "url") = true
    /\ format_kind d = Some kind
    /\ In kind format_kinds
    /\ format_size_val (get_size_bytes d) = Ok shown.

(** A descriptor whose size is a text. *)
Definition sample_text_size : list (string * PyVal) :=
  [("url", PStr "https://cdn/22"); ("vcodec", PStr "avc1");
   ("filesize", PStr "12 MiB")].

(** The kinds [/api/audio] and [/api/video] keep. *)
Definition audio_kinds : list string := ["audio-only"; "progressive"].

Definition video_kinds : list string := ["video-only"; "progressive"].

(** A library that answers with a playlist, one of its videos not
    available. *)
Definition playlist_outside : Outside := {|
  ydl_run := fun n _ _ =>
    {| elapsed := 2;
       finished := Returned (PDict [("id", PStr "PL1");
                     ("entries", PList [sample_info 7; PNone])]) |};
  search_run := fun _ _ => SearchReturned (PList []);
  evicts := fun _ _ => false;
  exc_text := fun _ => "error";
  repr_text := fun _ => "value";
  unquote_plus := fun s => s;
  META_TIMEOUT := 6;
  FULL_INFO_TIMEOUT := 30
|}.

(** The body of the home route. *)
Definition alive_message : PyVal :=
  PDict [("message", PStr "âœ… YouTube API is alive")].

(** A reply of the application: status 200, or one of the four error
    statuses with a body [{error: message}], or an exception nobody
    caught. *)
Definition good_reply (rv : Reply) : Prop :=
  match rv with
  | Resp c b =>
      c = 200
      \/ ((c = 400 \/ c = 404 \/ c = 500 \/ c = 504)
          /\ exists msg, b = error_body msg)
  | Unhandled _ => True
  end.

(** The replies the cache holds are such replies. *)
Definition views_ok (m : gmap string (Z * Cached)) : Prop :=
  forall key e rv, m !! key = Some (e, CView rv) -> good_reply rv.


(** [v] is a dictionary. *)
Definition is_dict (v : PyVal) : Prop := exists d, v = PDict d.

(** The routes whose work is in a [try] block, and the home route,
    which does nothing that raises. *)
Definition catches (r : Route) : bool :=
  match r with
  | Home | FastMeta | Channel | Playlist
  | Instagram | Twitter | TikTok | Facebook => true
  | _ => false
  end.

(** The shaping of a route raises [e] for the information [info] of a
    successful extraction; the social routes and the home route shape
    nothing. *)
Definition shaping_raises (X : Outside) (r : Route) (info : PyVal) (e : PyExc)
  : Prop :=
  match r with
  | FastMeta => fast_meta_url X info = Raise e
  | All => all_data info = Raise e
  | Meta => meta_data info = Raise e
  | Channel => channel_data info = Raise e
  | Playlist => playlist_data info = Raise e
  | Download => formats_data info = Raise e
  | Audio => kinds_data "audio_formats" ["audio-only"; "progressive"] info = Raise e
  | Video => kinds_data "video_formats" ["video-only"; "progressive"] info = Raise e
  | _ => False
  end.

(** A library that returns no information. *)
Definition none_outside : Outside := {|
  ydl_run := fun n _ _ => {| elapsed := 2; finished := Returned PNone |};
  search_run := fun _ _ => SearchReturned (PList []);
  evicts := fun _ _ => false;
  exc_text := fun _ => "error";
  repr_text := fun _ => "value";
  unquote_plus := fun s => s;
  META_TIMEOUT := 6;
  FULL_INFO_TIMEOUT := 30
|}.


(** * Properties *)

(** ** Strings *)

Lemma app_cons c s t : String c s +:+ t = String c (s +:+ t).
Proof. reflexivity. Qed.

Lemma app_empty_l t : EmptyString +:+ t = t.
Proof. reflexivity. Qed.

Lemma app_empty_r s : s +:+ EmptyString = s.
Proof. induction s as [|c s IH]; [done|]. by rewrite app_cons, IH. Qed.

Lemma app_assoc_s s t u : (s +:+ t) +:+ u = s +:+ (t +:+ u).
Proof. induction s as [|c s IH]; [done|]. by rewrite !app_cons, IH. Qed.

Lemma rev_app_app s acc : String.rev_app s acc = String.rev_app s EmptyString +:+ acc.
Proof.
  revert acc. induction s as [|c s IH]; intros acc; [done|].
  simpl. rewrite (IH (String c acc)), (IH (String c EmptyString)).
  by rewrite app_assoc_s.
Qed.

Lemma rev_rev_app s cur : String.rev (String.rev_app s cur) = String.rev cur +:+ s.
Proof.
  revert cur. induction s as [|c s IH]; intros cur.
  - by rewrite app_empty_r.
  - simpl. rewrite IH. unfold String.rev. simpl.
    rewrite (rev_app_app cur (String c EmptyString)).
    by rewrite app_assoc_s.
Qed.

Lemma split_go_piece_end m cur :
  no_colon m = true ->
  split_go ":" 0 cur m = [String.rev cur +:+ m].
Proof.
  revert cur. induction m as [|c m IH]; intros cur Hm.
  - by rewrite app_empty_r.
  - apply andb_true_iff in Hm as [Hc Hm]. fold (no_colon m) in Hm.
    cbn [split_go String.prefix].
    destruct (Ascii.ascii_dec ":" c) as [<-|Hne]; [done|].
    rewrite IH by done. unfold String.rev. simpl.
    by rewrite (rev_app_app cur (String c EmptyString)), app_assoc_s.
Qed.

Lemma split_go_piece m cur rest :
  no_colon m = true ->
  split_go ":" 0 cur (m +:+ String ":" rest)
  = (String.rev cur +:+ m) :: split_go ":" 0 EmptyString rest.
Proof.
  revert cur. induction m as [|c m IH]; intros cur Hm.
  - rewrite app_empty_l, app_empty_r. cbn [split_go String.prefix].
    destruct (Ascii.ascii_dec ":" ":"); [|done]. by destruct rest.
  - apply andb_true_iff in Hm as [Hc Hm]. fold (no_colon m) in Hm.
    rewrite app_cons. cbn [split_go String.prefix].
    destruct (Ascii.ascii_dec ":" c) as [<-|Hne]; [done|].
    rewrite IH by done. unfold String.rev. simpl.
    by rewrite (rev_app_app cur (String c EmptyString)), app_assoc_s.
Qed.

Lemma split_two m s :
  no_colon m = true -> no_colon s = true ->
  split ":" (m +:+ ":" +:+ s) = [m; s].
Proof.
  intros Hm Hs. unfold split.
  change (":" +:+ s) with (String ":" s).
  rewrite split_go_piece by done.
  by rewrite split_go_piece_end.
Qed.

Lemma split_three h m s :
  no_colon h = true -> no_colon m = true -> no_colon s = true ->
  split ":" (h +:+ ":" +:+ m +:+ ":" +:+ s) = [h; m; s].
Proof.
  intros Hh Hm Hs. unfold split.
  change (":" +:+ m +:+ ":" +:+ s) with (String ":" (m +:+ ":" +:+ s)).
  rewrite split_go_piece by done.
  pose proof (split_two m s Hm Hs) as E. unfold split in E. by rewrite E.
Qed.

Lemma joined_nonempty m t : String.eqb (m +:+ String ":" t) EmptyString = false.
Proof. by destruct m. Qed.

(** ** Duration normalization *)

Lemma is_nat_digit c d : Ascii.is_nat c = Some d -> (d <= 9)%nat.
Proof.
  destruct c as [[] [] [] [] [] [] [] []]; cbn; intros [= <-]; lia.
Qed.

(** [k] digits make a number below [10 ^ k]. *)
Lemma int_body_bound s acc after n rest :
  0 <= acc ->
  int_body acc after s = Some (n, rest) ->
  0 <= n < (acc + 1) * 10 ^ Z.of_nat (count_digits s).
Proof.
  revert acc after. induction s as [|c s IH]; intros acc after Hacc.
  - cbn. destruct after; [done|]. intros [= <- <-]. lia.
  - cbn [int_body count_digits].
    destruct (Ascii.is_nat c) as [d|] eqn:Hc.
    + intros E. apply is_nat_digit in Hc.
      apply IH in E; [|lia].
      rewrite Nat2Z.inj_succ, Z.pow_succ_r by lia.
      assert (0 < 10 ^ Z.of_nat (count_digits s)) by (apply Z.pow_pos_nonneg; lia).
      nia.
    + destruct (Ascii.eqb c "_").
      * destruct after; [done|]. by apply IH.
      * destruct after; [done|]. intros [= <- <-]. cbn. lia.
Qed.

(** What [int] returns has no more digits than the limit, and prints. *)
Lemma py_int_bound s n : py_int s = Ok n -> Z.abs n < 10 ^ INT_MAX_STR_DIGITS.
Proof.
  unfold py_int. repeat case_match; try done; intros [= <-];
    match goal with
    | E : int_body 0 false ?s2 = Some (?n0, _),
      L : (INT_MAX_STR_DIGITS <? Z.of_nat (count_digits ?s2)) = false |- _ =>
        apply Z.ltb_ge in L;
        pose proof (int_body_bound s2 0 false n0 _ ltac:(lia) E);
        assert (10 ^ Z.of_nat (count_digits s2) <= 10 ^ INT_MAX_STR_DIGITS)
          by (apply Z.pow_le_mono_r; lia)
    end; lia.
Qed.

Lemma int_to_str_small n :
  Z.abs n < 10 ^ INT_MAX_STR_DIGITS -> int_to_str n = Ok (str_int n).
Proof.
  intros Hn. unfold int_to_str. by rewrite (proj2 (Z.leb_gt _ _)) by done.
Qed.

Lemma py_int_to_str s n : py_int s = Ok n -> int_to_str n = Ok (str_int n).
Proof. intros E. by apply int_to_str_small, (py_int_bound s). Qed.

Lemma bind_py_int_str {A} s (k : Z -> string -> Res A) :
  (v ← py_int s; t ← int_to_str v; k v t) = (v ← py_int s; k v (str_int v)).
Proof.
  destruct (py_int s) as [n|e] eqn:E; [|done].
  cbn [mbind res_bind]. by rewrite (py_int_to_str s n E).
Qed.

Lemma two_part_duration (m s : string) :
  no_colon m = true -> no_colon s = true ->
  to_iso_duration (m +:+ ":" +:+ s)
  = (mv ← py_int m; sv ← py_int s;
     Ok ("PT" +:+ str_int mv +:+ "M" +:+ str_int sv +:+ "S")).
Proof.
  intros Hm Hs. unfold to_iso_duration.
  change (":" +:+ s) with (String ":" s) at 1. rewrite joined_nonempty.
  rewrite split_two by done.
  destruct (py_int m) as [mv|] eqn:Em; [|done]. cbn [mbind res_bind].
  rewrite (py_int_to_str m mv Em). cbn [mbind res_bind].
  destruct (py_int s) as [sv|] eqn:Es; [|done]. cbn [mbind res_bind].
  by rewrite (py_int_to_str s sv Es).
Qed.

Lemma three_part_duration (h m s : string) :
  no_colon h = true -> no_colon m = true -> no_colon s = true ->
  to_iso_duration (h +:+ ":" +:+ m +:+ ":" +:+ s)
  = (hv ← py_int h;
     iso ← (if negb (hv =? 0)
            then hv' ← py_int h; Ok ("PT" +:+ str_int hv' +:+ "H")
            else Ok "PT");
     mv ← py_int m; sv ← py_int s;
     Ok (iso +:+ str_int mv +:+ "M" +:+ str_int sv +:+ "S")).
Proof.
  intros Hh Hm Hs. unfold to_iso_duration.
  change (":" +:+ m +:+ ":" +:+ s) with (String ":" (m +:+ ":" +:+ s)) at 1.
  rewrite joined_nonempty. rewrite split_three by done.
  destruct (py_int h) as [hv|] eqn:Eh; [|done]. cbn [mbind res_bind].
  destruct (negb (hv =? 0)); cbn [mbind res_bind];
    rewrite ?(py_int_to_str h hv Eh); cbn [mbind res_bind];
    (destruct (py_int m) as [mv|] eqn:Em; [|done]); cbn [mbind res_bind];
    rewrite (py_int_to_str m mv Em); cbn [mbind res_bind];
    (destruct (py_int s) as [sv|] eqn:Es; [|done]); cbn [mbind res_bind];
    by rewrite (py_int_to_str s sv Es).
Qed.

(** C10.  A three-part duration with hour part [0] is normalized like
    its two-part rest: for all minute and second pieces [m] and [s],
    ["0:m:s"] and ["m:s"] have the same outcome, which carries no hour
    component. *)
Theorem zero_hour_omitted (m s : string) :
  no_colon m = true -> no_colon s = true ->
  to_iso_duration ("0:" +:+ m +:+ ":" +:+ s) = to_iso_duration (m +:+ ":" +:+ s)
  /\ to_iso_duration (m +:+ ":" +:+ s)
     = (mv ← py_int m; sv ← py_int s;
        Ok ("PT" +:+ str_int mv +:+ "M" +:+ str_int sv +:+ "S")).
Proof.
  intros Hm Hs. split; [|by apply two_part_duration].
  rewrite two_part_duration by done.
  change ("0:" +:+ m +:+ ":" +:+ s) with ("0" +:+ ":" +:+ m +:+ ":" +:+ s).
  by rewrite three_part_duration.
Qed.

Lemma zero_hour_omitted_witness :
  (no_colon "05" = true /\ no_colon "09" = true)
  /\ to_iso_duration ("0:" +:+ "05" +:+ ":" +:+ "09")
     = to_iso_duration ("05" +:+ ":" +:+ "09").
Proof.
  split; [by split|]. apply (zero_hour_omitted "05" "09"); reflexivity.
Defined.

Lemma int_body_digits s acc :
  all_chars is_digit s = true ->
  int_body acc false s = Some (decimal_from acc s, EmptyString).
Proof.
  revert acc. induction s as [|c s IH]; intros acc Hs; [done|].
  apply andb_true_iff in Hs as [Hc Hs]. cbn [int_body decimal_from].
  unfold is_digit in Hc. destruct (Ascii.is_nat c) as [d|]; [|done].
  by apply IH.
Qed.

Lemma digit_not_space c : is_digit c = true -> Ascii.is_space c = false.
Proof.
  destruct c as [[] [] [] [] [] [] [] []]; try done.
Qed.

Lemma count_digits_all s :
  all_chars is_digit s = true -> count_digits s = String.length s.
Proof.
  induction s as [|c s IH]; [done|]. intros [Hc Hs]%andb_true_iff.
  cbn [count_digits String.length]. unfold is_digit in Hc.
  destruct (Ascii.is_nat c); [|done]. by rewrite IH.
Qed.

Lemma py_int_digits s :
  isdigit s = true ->
  Z.of_nat (String.length s) <= INT_MAX_STR_DIGITS ->
  py_int s = Ok (decimal s).
Proof.
  unfold isdigit. intros [Hne Hs]%andb_true_iff Hlen.
  rewrite <- (count_digits_all s Hs) in Hlen.
  destruct s as [|c s]; [done|].
  pose proof Hs as Hs'. apply andb_true_iff in Hs' as [Hc _].
  unfold py_int. cbn [skip_space]. rewrite (digit_not_space c Hc).
  assert (match String c s with
          | String "+" r => (false, r)
          | String "-" r => (true, r)
          | _ => (false, String c s)
          end = (false, String c s)) as ->.
  { destruct c as [[] [] [] [] [] [] [] []]; try done. }
  rewrite Hc, (int_body_digits _ _ Hs).
  by rewrite (proj2 (Z.ltb_ge _ _) Hlen).
Qed.

Lemma digits_no_colon s : all_chars is_digit s = true -> no_colon s = true.
Proof.
  induction s as [|c s IH]; [done|]. intros [Hc Hs]%andb_true_iff.
  unfold no_colon. cbn [all_chars]. fold (no_colon s). rewrite IH by done.
  destruct c as [[] [] [] [] [] [] [] []]; try done.
Qed.

Lemma isdigit_no_colon s : isdigit s = true -> no_colon s = true.
Proof. intros [_ Hs]%andb_true_iff. by apply digits_no_colon. Qed.

(** X1.  Strings [H:M:S], [M:S] and [S] of decimal digits, each of no more
    digits than the interpreter reads, normalize to the duration they
    denote; a zero hour is left out. *)
Lemma valid_durations (h m s : string) :
  isdigit h = true -> isdigit m = true -> isdigit s = true ->
  Z.of_nat (String.length h) <= INT_MAX_STR_DIGITS ->
  Z.of_nat (String.length m) <= INT_MAX_STR_DIGITS ->
  Z.of_nat (String.length s) <= INT_MAX_STR_DIGITS ->
  to_iso_duration (h +:+ ":" +:+ m +:+ ":" +:+ s)
  = Ok ("PT" +:+ (if decimal h =? 0 then EmptyString else str_int (decimal h) +:+ "H")
          +:+ str_int (decimal m) +:+ "M" +:+ str_int (decimal s) +:+ "S")
  /\ to_iso_duration (m +:+ ":" +:+ s)
     = Ok ("PT" +:+ str_int (decimal m) +:+ "M" +:+ str_int (decimal s) +:+ "S")
  /\ to_iso_duration s = Ok ("PT" +:+ str_int (decimal s) +:+ "S").
Proof.
  intros Hh Hm Hs Lh Lm Ls.
  pose proof (isdigit_no_colon _ Hh) as Ch.
  pose proof (isdigit_no_colon _ Hm) as Cm.
  pose proof (isdigit_no_colon _ Hs) as Cs.
  split; [|split].
  - rewrite three_part_duration by done.
    rewrite !py_int_digits by done. cbn [mbind res_bind].
    destruct (decimal h =? 0); cbn [negb mbind res_bind]; [done|].
    by rewrite !app_assoc_s.
  - rewrite two_part_duration by done.
    by rewrite !py_int_digits by done.
  - unfold to_iso_duration.
    assert (String.eqb s EmptyString = false) as ->.
    { apply andb_true_iff in Hs as [Hne _]. by destruct s. }
    unfold split. rewrite split_go_piece_end by done. cbn [String.rev String.rev_app].
    rewrite app_empty_l, Hs, py_int_digits by done. cbn [mbind res_bind].
    by rewrite (py_int_to_str s (decimal s)) by (by apply py_int_digits).
Qed.

(** C3.  A malformed two-part string does not normalize to the zero
    duration: [int] raises on its first piece.  The one-part branch
    guards [int] with [isdigit], the two- and three-part branches do
    not. *)
Theorem malformed_pair_raises :
  to_iso_duration "a:b" = Raise (ValueError "a")
  /\ to_iso_duration "1:x:3" = Raise (ValueError "x")
  /\ to_iso_duration "abc" = Ok "PT0S".
Proof. repeat split; vm_compute; reflexivity. Qed.

(** ** Format classification *)

(** The loop keeps, in their order, the entries [format_entry] yields,
    and raises where [format_entry] first raises. *)
Lemma formats_loop_spec (fs fmts : list PyVal) :
  formats_loop fs fmts
  = (es ← res_map format_entry fs; Ok (fmts ++ kept es)).
Proof.
  revert fmts. induction fs as [|f fs IH]; intros fmts.
  - cbn. by rewrite app_nil_r.
  - cbn [formats_loop res_map]. destruct (format_entry f) as [e|x]; [|done].
    cbn [mbind res_bind]. rewrite IH.
    destruct (res_map format_entry fs) as [es|x]; [|done].
    cbn [mbind res_bind mret res_ret]. f_equal.
    by rewrite <- app_assoc.
Qed.

Lemma build_formats_list_spec (info : PyVal) (fs : list PyVal) :
  py_get_or info "formats" (PList []) = Ok (PList fs) ->
  build_formats_list info = (es ← res_map format_entry fs; Ok (kept es)).
Proof.
  intros E. unfold build_formats_list. rewrite E. cbn [mbind res_bind py_iter].
  by rewrite formats_loop_spec.
Qed.

Lemma format_entry_kept (d : list (string * PyVal)) (kind shown : string) :
  truthy (dict_get d "url") = true ->
  format_kind d = Some kind ->
  format_size_val (get_size_bytes d) = Ok shown ->
  format_entry (PDict d)
  = Ok (Some (format_record d (dict_get d "url") kind (get_size_bytes d) shown)).
Proof.
  intros Hu Hk Hs. unfold format_entry. by rewrite Hu, Hk, Hs.
Qed.

Lemma format_record_carries (d : list (string * PyVal)) (kind shown : string) :
  entry_carries (format_record d (dict_get d "url") kind (get_size_bytes d) shown)
    d kind shown.
Proof. repeat split. Qed.

(** C4.  Every descriptor of the extraction result goes through
    [format_entry], and the list returned holds, in order, the entries
    that were kept.  A descriptor without a stream URL is dropped
    whatever its codecs are; one with a URL whose codecs are both
    ['none'] is dropped; one with a URL is kept, and the entry the
    caller gets for it has the kind ['progressive'] when both codecs
    are valid, ['video-only'] when only the video codec is,
    ['audio-only'] when only the audio codec is, with the URL, the size
    and the other fields of the descriptor. *)
Theorem format_classification (d : list (string * PyVal)) (shown : string) :
  (forall info fs,
     py_get_or info "formats" (PList []) = Ok (PList fs) ->
     build_formats_list info = (es ← res_map format_entry fs; Ok (kept es)))
  /\ (truthy (dict_get d "url") = false -> format_entry (PDict d) = Ok None)
  /\ (truthy (dict_get d "url") = true ->
      differs_from (dict_get d "vcodec") "none" = false ->
      differs_from (dict_get d "acodec") "none" = false ->
      format_entry (PDict d) = Ok None)
  /\ (truthy (dict_get d "url") = true ->
      format_size_val (get_size_bytes d) = Ok shown ->
      (differs_from (dict_get d "vcodec") "none" = true ->
       differs_from (dict_get d "acodec") "none" = true ->
       exists e,
         format_entry (PDict d) = Ok (Some e)
         /\ e = format_record d (dict_get d "url") "progressive"
                  (get_size_bytes d) shown
         /\ entry_carries e d "progressive" shown)
      /\ (differs_from (dict_get d "vcodec") "none" = true ->
          differs_from (dict_get d "acodec") "none" = false ->
          exists e,
            format_entry (PDict d) = Ok (Some e)
            /\ e = format_record d (dict_get d "url") "video-only"
                     (get_size_bytes d) shown
            /\ entry_carries e d "video-only" shown)
      /\ (differs_from (dict_get d "vcodec") "none" = false ->
          differs_from (dict_get d "acodec") "none" = true ->
          exists e,
            format_entry (PDict d) = Ok (Some e)
            /\ e = format_record d (dict_get d "url") "audio-only"
                     (get_size_bytes d) shown
            /\ entry_carries e d "audio-only" shown)).
Proof.
  split; [exact build_formats_list_spec|].
  split; [|split].
  - intros Hu. unfold format_entry. by rewrite Hu.
  - intros Hu Hv Ha. unfold format_entry, format_kind. by rewrite Hu, Hv, Ha.
  - intros Hu Hs. repeat split; intros Hv Ha;
      (eexists; split; [|split; [reflexivity|apply format_record_carries]]);
      apply format_entry_kept; try done; unfold format_kind; by rewrite Hv, Ha.
Qed.

Lemma format_classification_witness :
  (truthy (dict_get sample_video_only "url") = true
   /\ format_size_val (get_size_bytes sample_video_only) = Ok "2.50 MB"
   /\ differs_from (dict_get sample_video_only "vcodec") "none" = true
   /\ differs_from (dict_get sample_video_only "acodec") "none" = false)
  /\ format_entry (PDict sample_video_only)
     = Ok (Some (PDict [
         ("format_id", PStr "137"); ("ext", PNone); ("kind", PStr "video-only");
         ("filesize_bytes", PInt 2500000); ("filesize", PStr "2.50 MB");
         ("width", PNone); ("height", PNone); ("fps", PNone);
         ("abr", PNone); ("asr", PNone); ("url", PStr "https://cdn/137")])).
Proof.
  split; [by vm_compute|].
  destruct (format_classification sample_video_only "2.50 MB")
    as (_ & _ & _ & Hkept).
  destruct Hkept as (_ & Hvideo & _); [by vm_compute..|].
  destruct Hvideo as (e & -> & -> & _); [by vm_compute..|].
  reflexivity.
Defined.

(** C9.  A descriptor with a stream URL whose codec fields are absent,
    or [None], is kept and classified ['progressive']: only the string
    ['none'] marks a missing codec.  The entry [build_formats_list]
    returns for it has the kind ['progressive']. *)
Theorem absent_codecs_progressive (d : list (string * PyVal)) (shown : string) :
  truthy (dict_get d "url") = true ->
  assoc "vcodec" d = None \/ assoc "vcodec" d = Some PNone ->
  assoc "acodec" d = None \/ assoc "acodec" d = Some PNone ->
  format_size_val (get_size_bytes d) = Ok shown ->
  format_kind d = Some "progressive"
  /\ exists e,
       format_entry (PDict d) = Ok (Some e)
       /\ build_formats_list (PDict [("formats", PList [PDict d])]) = Ok [e]
       /\ e = format_record d (dict_get d "url") "progressive"
                (get_size_bytes d) shown
       /\ py_get e "kind" = Ok (PStr "progressive")
       /\ entry_carries e d "progressive" shown.
Proof.
  intros Hu Hv Ha Hs.
  assert (format_kind d = Some "progressive") as Hk.
  { unfold format_kind, dict_get. by destruct Hv as [-> | ->], Ha as [-> | ->]. }
  pose proof (format_entry_kept d _ shown Hu Hk Hs) as He.
  split; [done|]. eexists. split; [exact He|].
  split; [|split; [reflexivity|split; [reflexivity|apply format_record_carries]]].
  rewrite (build_formats_list_spec _ [PDict d]) by done.
  cbn [res_map]. by rewrite He.
Qed.

Lemma absent_codecs_progressive_witness :
  (truthy (dict_get sample_no_codecs "url") = true
   /\ assoc "vcodec" sample_no_codecs = None
   /\ assoc "acodec" sample_no_codecs = Some PNone
   /\ format_size_val (get_size_bytes sample_no_codecs) = Ok "0 B")
  /\ build_formats_list (PDict [("formats", PList [PDict sample_no_codecs])])
     = Ok [PDict [
         ("format_id", PStr "hls"); ("ext", PNone); ("kind", PStr "progressive");
         ("filesize_bytes", PInt 0); ("filesize", PStr "0 B");
         ("width", PNone); ("height", PNone); ("fps", PNone);
         ("abr", PNone); ("asr", PNone); ("url", PStr "https://cdn/hls")]].
Proof.
  split; [by vm_compute|].
  destruct (absent_codecs_progressive sample_no_codecs "0 B")
    as (_ & e & _ & -> & -> & _); [by vm_compute|by left|by right|by vm_compute|].
  reflexivity.
Defined.

(** ** Size formatting *)

Lemma round_half_even_nonneg (num den : Z) :
  0 <= num -> 0 < den -> 0 <= round_half_even num den.
Proof.
  intros Hn Hd. unfold round_half_even.
  assert (0 <= num / den) by (apply Z.div_pos; lia).
  destruct (2 * (num mod den) ?= den); [destruct (Z.even _)| |]; lia.
Qed.

(** A finite value is rendered with an integer part and exactly two
    decimal digits. *)
Lemma fixed2_two_decimals (sign : bool) (m : positive) (e : Z) :
  exists i a b : Z,
    0 <= i /\ 0 <= a <= 9 /\ 0 <= b <= 9
    /\ fixed2 (S754_finite sign m e)
       = (if sign then "-" else EmptyString) +:+ str_int i +:+ "."
           +:+ str_int a +:+ str_int b.
Proof.
  unfold fixed2.
  set (h := match e with
            | Zneg p => round_half_even (100 * Z.pos m) (2 ^ Z.pos p)
            | _ => 100 * Z.pos m * 2 ^ e
            end).
  assert (0 <= h) as Hh.
  { subst h. destruct e as [|p|p].
    - lia.
    - assert (0 < 2 ^ Z.pos p) by (apply Z.pow_pos_nonneg; lia). nia.
    - apply round_half_even_nonneg; [lia|]. apply Z.pow_pos_nonneg; lia. }
  exists (h / 100), (h mod 100 / 10), (h mod 10).
  repeat split; try done.
  - apply Z.div_pos; lia.
  - apply Z.div_pos; [|lia]. apply Z.mod_pos_bound; lia.
  - assert (h mod 100 < 100) by (apply Z.mod_pos_bound; lia).
    assert (h mod 100 / 10 < 10) by (apply Z.div_lt_upper_bound; lia). lia.
  - apply Z.mod_pos_bound; lia.
  - assert (h mod 10 < 10) by (apply Z.mod_pos_bound; lia). lia.
Qed.

(** Integers below 2^53 convert to binary64 without overflow, so that
    [format_size] returns for every byte count a file can have. *)
Lemma digits2_pos_lower (p : positive) :
  2 ^ (Z.pos (digits2_pos p) - 1) <= Z.pos p.
Proof.
  induction p as [p IH|p IH|]; cbn [digits2_pos]; [| |done].
  - rewrite Pos2Z.inj_succ.
    replace (Z.succ (Z.pos (digits2_pos p)) - 1) with (Z.succ (Z.pos (digits2_pos p) - 1)) by lia.
    rewrite Z.pow_succ_r by lia. lia.
  - rewrite Pos2Z.inj_succ.
    replace (Z.succ (Z.pos (digits2_pos p)) - 1) with (Z.succ (Z.pos (digits2_pos p) - 1)) by lia.
    rewrite Z.pow_succ_r by lia. lia.
Qed.

Lemma digits2_pos_shift (p d : positive) :
  digits2_pos (Pos.iter xO p d) = (digits2_pos p + d)%positive.
Proof.
  induction d as [|d IH] using Pos.peano_ind.
  - cbn. lia.
  - rewrite Pos.iter_succ. cbn [digits2_pos]. rewrite IH. lia.
Qed.

Lemma b64_of_Z_finite (p : positive) :
  Z.pos p < 2 ^ 53 ->
  exists m e, b64_of_Z (Z.pos p) = S754_finite false m e.
Proof.
  intros Hp.
  assert (Z.pos (digits2_pos p) <= 53) as Hd.
  { pose proof (digits2_pos_lower p) as Hl.
    destruct (Z_le_gt_dec (Z.pos (digits2_pos p)) 53) as [|Hgt]; [done|].
    assert (2 ^ 53 <= 2 ^ (Z.pos (digits2_pos p) - 1))
      by (apply Z.pow_le_mono_r; lia). lia. }
  unfold b64_of_Z, binary_normalize, binary_round, shl_align.
  assert (fexp 53 1024 (Z.pos (digits2_pos p) + 0) = Z.pos (digits2_pos p) - 53)
    as ->.
  { unfold fexp, emin. lia. }
  assert (forall mz, digits2_pos mz = 53%positive ->
            binary_round_aux 53 1024 false (Z.pos mz) (Z.pos (digits2_pos p) - 53)
              loc_Exact
            = S754_finite false mz (Z.pos (digits2_pos p) - 53)) as Haux.
  { intros mz Hmz. unfold binary_round_aux, shr_fexp, Zdigits2.
    cbn [round_nearest_even shr_record_of_loc]. rewrite Hmz.
    assert (fexp 53 1024 (53 + (Z.pos (digits2_pos p) - 53))
            - (Z.pos (digits2_pos p) - 53) = 0) as ->.
    { unfold fexp, emin. lia. }
    cbn [shr shr_m loc_of_shr_record round_nearest_even shr_record_of_loc Zdigits2].
    rewrite Hmz.
    assert (fexp 53 1024 (53 + (Z.pos (digits2_pos p) - 53))
            - (Z.pos (digits2_pos p) - 53) = 0) as ->.
    { unfold fexp, emin. lia. }
    cbn [shr shr_m].
    by rewrite (proj2 (Z.leb_le _ _)) by lia. }
  destruct (Z.pos (digits2_pos p) - 53 - 0) as [|d|d] eqn:Hs; [| lia |].
  - assert (Z.pos (digits2_pos p) - 53 = 0) as E0 by lia.
    pose proof (Haux p) as H. rewrite E0 in H.
    eexists _, _. apply H. lia.
  - eexists _, _. apply Haux. rewrite digits2_pos_shift. lia.
Qed.

Lemma below_digit_limit : 2 ^ 53 <= 10 ^ INT_MAX_STR_DIGITS.
Proof. by vm_compute. Qed.

Lemma format_size_returns (n : Z) :
  0 <= n < 2 ^ 53 -> exists shown, format_size n = Ok shown.
Proof.
  intros Hn.
  assert (int_to_str n = Ok (str_int n)) as Hstr.
  { apply int_to_str_small. pose proof below_digit_limit. lia. }
  assert (forall d, exists x, int_truediv n d = Ok x) as Hdiv.
  { intros d. unfold int_truediv. destruct n as [|p|p]; [by eexists| |lia].
    destruct (b64_of_Z_finite p) as (m & e & ->); [lia|]. by eexists. }
  unfold format_size.
  repeat match goal with
  | |- context [int_truediv n ?d] =>
      let x := fresh "x" in let E := fresh "E" in
      destruct (Hdiv d) as [x E]; rewrite E; clear E
  end.
  rewrite Hstr. repeat case_match; by eexists.
Qed.

(** C5.  The unit follows the byte count in steps of 1000: below 1000
    the count itself with [B], from 10^3 the count over 10^3 with [KB],
    from 10^6 over 10^6 with [MB], from 10^9 over 10^9 with [GB], the
    quotient rendered with two decimals; a string is returned for
    every count below 2^53; and the four values of the specification. *)
Theorem format_size_tiers :
  (forall n, 0 <= n < 10 ^ 3 -> format_size n = Ok (str_int n +:+ " B"))
  /\ (forall n, 10 ^ 3 <= n < 10 ^ 6 ->
      format_size n
      = (x ← int_truediv n (b64_of_Z (10 ^ 3)); Ok (fixed2 x +:+ " KB")))
  /\ (forall n, 10 ^ 6 <= n < 10 ^ 9 ->
      format_size n
      = (x ← int_truediv n (b64_of_Z (10 ^ 6)); Ok (fixed2 x +:+ " MB")))
  /\ (forall n, 10 ^ 9 <= n ->
      format_size n
      = (x ← int_truediv n (b64_of_Z (10 ^ 9)); Ok (fixed2 x +:+ " GB")))
  /\ (forall n, 0 <= n < 2 ^ 53 -> exists shown, format_size n = Ok shown)
  /\ format_size 500 = Ok "500 B"
  /\ format_size 1500 = Ok "1.50 KB"
  /\ format_size 2500000 = Ok "2.50 MB"
  /\ format_size 3000000000 = Ok "3.00 GB".
Proof.
  split; [|split; [|split; [|split; [|split; [exact format_size_returns|]]]]].
  - intros n Hn. unfold format_size.
    rewrite !(proj2 (Z.leb_gt _ _)) by lia.
    rewrite int_to_str_small; [done|].
    pose proof below_digit_limit. lia.
  - intros n Hn. unfold format_size.
    rewrite !(proj2 (Z.leb_gt _ n)) by lia.
    rewrite (proj2 (Z.leb_le _ n)) by lia. reflexivity.
  - intros n Hn. unfold format_size.
    rewrite (proj2 (Z.leb_gt _ n)) by lia.
    rewrite (proj2 (Z.leb_le _ n)) by lia. reflexivity.
  - intros n Hn. unfold format_size.
    rewrite (proj2 (Z.leb_le _ n)) by lia. reflexivity.
  - repeat split; vm_compute; reflexivity.
Qed.

Lemma format_size_tiers_witness :
  10 ^ 3 <= 999999 < 10 ^ 6 /\ format_size 999999 = Ok "1000.00 KB".
Proof.
  split; [lia|].
  destruct format_size_tiers as (_ & KB & _).
  rewrite (KB 999999) by lia. by vm_compute.
Defined.

(** Around the steps, and where binary64 rounds the quotient below a
    decimal tie. *)
Example format_size_steps :
  format_size 0 = Ok "0 B"
  /\ format_size 999 = Ok "999 B"
  /\ format_size 1000 = Ok "1.00 KB"
  /\ format_size 1015 = Ok "1.01 KB"
  /\ format_size 1000000 = Ok "1.00 MB"
  /\ format_size 999999999 = Ok "1000.00 MB"
  /\ format_size 1000000000 = Ok "1.00 GB".
Proof. repeat split; by vm_compute. Qed.

(** ** The extraction gateway *)

Section Gateway.
Variable X : Outside.

(** Every call of [extract_info] is one call of the library, and leaves
    the cache alone. *)
Lemma extract_info_world url sq opts timeout w :
  let w' := (extract_info X url sq opts timeout w).2 in
  calls w' = calls w ++ [YdlCall (default ydl_opts_full opts)
                           (gateway_target url sq) timeout]
  /\ cache w' = cache w.
Proof.
  unfold extract_info, gateway_target.
  repeat case_match; done.
Qed.

Lemma extract_info_timeout url sq opts timeout w :
  timed_out timeout (gateway_run X url sq opts w) = true ->
  (extract_info X url sq opts timeout w).1
  = (PNone, error_body "yt-dlp timed out", Some 504).
Proof.
  unfold timed_out, gateway_run, extract_info, gateway_target.
  intros ->. done.
Qed.

Lemma extract_info_failure url sq opts timeout w msg :
  timed_out timeout (gateway_run X url sq opts w) = false ->
  finished (gateway_run X url sq opts w) = RaisedDownloadError msg
  \/ finished (gateway_run X url sq opts w) = RaisedOther msg ->
  (extract_info X url sq opts timeout w).1
  = (PNone, error_body msg, Some 500).
Proof.
  unfold timed_out, gateway_run, extract_info, gateway_target.
  intros -> [-> | ->]; done.
Qed.

(** In search mode the first entry of the result set is the answer,
    and an empty result set is a 404. *)
Lemma extract_info_search url q opts timeout w d :
  nonempty q = true ->
  timed_out timeout (gateway_run X url (Some q) opts w) = false ->
  finished (gateway_run X url (Some q) opts w) = Returned (PDict d) ->
  (forall first rest,
     assoc "entries" d = Some (PList (first :: rest)) ->
     (extract_info X url (Some q) opts timeout w).1 = (first, PNone, None))
  /\ (assoc "entries" d = Some (PList []) ->
      (extract_info X url (Some q) opts timeout w).1
      = (PNone, error_body "No search results", Some 404)).
Proof.
  unfold timed_out, gateway_run, extract_info, gateway_target, given, nonempty.
  intros -> -> ->. unfold dict_get.
  split; [intros first rest|]; intros ->; done.
Qed.

(** The answer is a success or a failure, never both. *)
Lemma extract_info_triple url sq opts timeout w :
  let r := (extract_info X url sq opts timeout w).1 in
  (r.1.2 = PNone /\ r.2 = None)
  \/ (r.1.1 = PNone /\ (exists msg, r.1.2 = error_body msg)
      /\ (r.2 = Some 404 \/ r.2 = Some 500 \/ r.2 = Some 504)).
Proof.
  unfold extract_info.
  repeat case_match; cbn [fst snd]; first [by left | right; eauto 10].
Qed.

(** The answer depends on the calls made before, not on the cache. *)
Lemma extract_info_answer url sq opts timeout w w' :
  calls w' = calls w ->
  (extract_info X url sq opts timeout w').1
  = (extract_info X url sq opts timeout w).1.
Proof.
  unfold extract_info. intros ->. repeat case_match; done.
Qed.

End Gateway.

Ltac open_route :=
  unfold handle, home, api_fast_meta, api_all, api_meta, api_channel,
    api_playlist, api_instagram, api_twitter, api_tiktok, api_facebook,
    api_download, api_audio, api_video, cache_cached, api_download_view;
  unfold gateway_args, missing_params, answers_from_cache, after_bypass,
    cache_key, keeps_data, arg, latest, raw_arg, first_of in *;
  cbv zeta in *;
  repeat match goal with
  | |- context [strip ?a] =>
      let x := fresh "p" in set (x := strip a) in *; clearbody x
  | |- context [args_has ?a ?k] =>
      let x := fresh "flag" in set (x := args_has a k) in *; clearbody x
  | |- context [args_get ?a ?k] =>
      let x := fresh "p" in set (x := args_get a k) in *; clearbody x
  end.

Section Routes.
Variable X : Outside.

Lemma handle_gateway r qs w url sq opts timeout :
  gateway_args X r qs = Some (url, sq, opts, timeout) ->
  missing_params X r qs = false ->
  answers_from_cache X r qs w = false ->
  exists info err code w1,
    extract_info X url sq (Some opts) timeout (after_bypass X r qs w)
    = (info, err, code, w1)
    /\ calls (handle X r qs w).2 = calls w1
    /\ (truthy err = true -> (handle X r qs w).1 = jsonify_with err code).
Proof.
  intros Ha Hm Hc.
  destruct (extract_info X url sq (Some opts) timeout (after_bypass X r qs w))
    as [[[info err] code] w1] eqn:E.
  exists info, err, code, w1. split; [done|].
  destruct r; open_route; rewrite ?Hc;
    repeat match goal with
    | H : context [nonempty ?p] |- _ => destruct (nonempty p)
    | H : context [given ?p] |- _ => destruct (given p)
    end; simplify_eq/=; rewrite ?E; cbn [fst snd].
  all: destruct (truthy err) eqn:Ht; (split; [|try done]).
  all: unfold fast_meta_finish, store_or_500, jsonify_with, uncaught;
    repeat case_match; simplify_eq; done.
Qed.

(** C7.  A call of the gateway whose timeout is shorter than the time
    the task takes returns the timeout triple, with code 504, and the
    route that made the call answers 504 with the body
    [{'error': 'yt-dlp timed out'}]; a failure the library reports in
    time returns its message with code 500, and the route answers 500
    with the body [{'error': message}], the message being the
    library's. *)
Theorem timeout_and_failure :
  (forall url sq opts t w,
     t < elapsed (gateway_run X url sq opts w) ->
     (extract_info X url sq opts (Some t) w).1
     = (PNone, PDict [("error", PStr "yt-dlp timed out")], Some 504))
  /\ (forall r qs w url sq opts t,
      gateway_args X r qs = Some (url, sq, opts, Some t) ->
      missing_params X r qs = false ->
      answers_from_cache X r qs w = false ->
      t < elapsed (gateway_run X url sq (Some opts) (after_bypass X r qs w)) ->
      (handle X r qs w).1 = Resp 504 (PDict [("error", PStr "yt-dlp timed out")]))
  /\ (forall url sq opts timeout w msg,
      timed_out timeout (gateway_run X url sq opts w) = false ->
      finished (gateway_run X url sq opts w) = RaisedDownloadError msg ->
      (extract_info X url sq opts timeout w).1
      = (PNone, PDict [("error", PStr msg)], Some 500))
  /\ (forall r qs w url sq opts timeout msg,
      gateway_args X r qs = Some (url, sq, opts, timeout) ->
      missing_params X r qs = false ->
      answers_from_cache X r qs w = false ->
      timed_out timeout
        (gateway_run X url sq (Some opts) (after_bypass X r qs w)) = false ->
      finished (gateway_run X url sq (Some opts) (after_bypass X r qs w))
      = RaisedDownloadError msg ->
      (handle X r qs w).1 = Resp 500 (PDict [("error", PStr msg)])).
Proof.
  split; [|split; [|split]].
  - intros url sq opts t w Ht. apply extract_info_timeout.
    unfold timed_out. by apply Z.ltb_lt.
  - intros r qs w url sq opts t Ha Hm Hc Ht.
    destruct (handle_gateway r qs w _ _ _ _ Ha Hm Hc)
      as (info & err & code & w1 & E & _ & Hr).
    pose proof (extract_info_timeout X url sq (Some opts) (Some t)
                  (after_bypass X r qs w)) as Hto.
    rewrite E in Hto. cbn [fst] in Hto.
    assert ((info, err, code) = (PNone, error_body "yt-dlp timed out", Some 504))
      as [= -> -> ->].
    { apply Hto. unfold timed_out. by apply Z.ltb_lt. }
    by apply Hr.
  - intros url sq opts timeout w msg Ht Hf.
    apply extract_info_failure; [done|by left].
  - intros r qs w url sq opts timeout msg Ha Hm Hc Ht Hf.
    destruct (handle_gateway r qs w _ _ _ _ Ha Hm Hc)
      as (info & err & code & w1 & E & _ & Hr).
    pose proof (extract_info_failure X url sq (Some opts) timeout
                  (after_bypass X r qs w) msg Ht (or_introl Hf)) as Hfl.
    rewrite E in Hfl. cbn [fst] in Hfl. injection Hfl as -> -> ->.
    by apply Hr.
Qed.

(** C6.  In search mode the query goes to the library behind the
    prefix [ytsearch:]; of a result set with entries the first entry is
    the success value; an empty result set is the failure
    ['No search results'] with code 404, which the route answers with
    status 404. *)
Theorem search_mode (url : option string) (q : string) (opts : option YdlOpts)
  (timeout : option Z) (w : World) :
  nonempty q = true ->
  calls (extract_info X url (Some q) opts timeout w).2
  = calls w ++ [YdlCall (default ydl_opts_full opts)
                  (Some ("ytsearch:" +:+ q)) timeout]
  /\ (forall d first rest,
      timed_out timeout (gateway_run X url (Some q) opts w) = false ->
      finished (gateway_run X url (Some q) opts w) = Returned (PDict d) ->
      assoc "entries" d = Some (PList (first :: rest)) ->
      (extract_info X url (Some q) opts timeout w).1 = (first, PNone, None))
  /\ (forall d,
      timed_out timeout (gateway_run X url (Some q) opts w) = false ->
      finished (gateway_run X url (Some q) opts w) = Returned (PDict d) ->
      assoc "entries" d = Some (PList []) ->
      (extract_info X url (Some q) opts timeout w).1
      = (PNone, error_body "No search results", Some 404))
  /\ (forall r qs w0 o d,
      gateway_args X r qs = Some (url, Some q, o, timeout) ->
      missing_params X r qs = false ->
      answers_from_cache X r qs w0 = false ->
      timed_out timeout
        (gateway_run X url (Some q) (Some o) (after_bypass X r qs w0)) = false ->
      finished (gateway_run X url (Some q) (Some o) (after_bypass X r qs w0))
      = Returned (PDict d) ->
      assoc "entries" d = Some (PList []) ->
      (handle X r qs w0).1 = Resp 404 (error_body "No search results")).
Proof.
  intros Hq. split; [|split; [|split]].
  - destruct (extract_info_world X url (Some q) opts timeout w) as [-> _].
    unfold gateway_target, given. unfold nonempty in Hq. by rewrite Hq.
  - intros d first rest Ht Hf He.
    by apply (proj1 (extract_info_search X url q opts timeout w d Hq Ht Hf)
                first rest).
  - intros d Ht Hf He.
    by apply (proj2 (extract_info_search X url q opts timeout w d Hq Ht Hf)).
  - intros r qs w0 o d Ha Hm Hc Ht Hf He.
    destruct (handle_gateway r qs w0 _ _ _ _ Ha Hm Hc)
      as (info & err & code & w1 & E & _ & Hr).
    destruct (extract_info_search X url q (Some o) timeout _ d Hq Ht Hf)
      as [_ H404].
    rewrite E in H404. cbn [fst] in H404. injection (H404 He) as -> -> ->.
    by apply Hr.
Qed.

(** ** The bypass flag *)

Lemma cache_get_deleted key w : cache_get key (cache_delete key w) = CData PNone.
Proof.
  unfold cache_get, cache_delete, set_cache. cbn [cache].
  by rewrite lookup_delete_eq.
Qed.

Lemma after_bypass_calls r qs w : calls (after_bypass X r qs w) = calls w.
Proof. unfold after_bypass. by repeat case_match. Qed.

Lemma bypass_misses r qs w :
  r <> Download -> latest X qs = true -> answers_from_cache X r qs w = false.
Proof.
  intros Hr Hl. unfold answers_from_cache, after_bypass.
  destruct (cache_key X r qs) as [key|] eqn:Hk; [|done].
  rewrite Hl. destruct r; try done; cbn [keeps_data];
    by rewrite cache_get_deleted.
Qed.

Lemma cache_delete_twice key w :
  cache_delete key (cache_delete key w) = cache_delete key w.
Proof.
  unfold cache_delete, set_cache. cbn [cache calls clock].
  by rewrite delete_delete_eq.
Qed.

(** With [latest], what a route answers is made from the answer of the
    gateway alone. *)
Lemma bypass_reply r qs w w' :
  r <> Download -> latest X qs = true -> calls w' = calls w ->
  (handle X r qs w').1 = (handle X r qs w).1.
Proof.
  intros Hr Hl Hc. revert Hl. destruct r; try done; open_route; intros ->;
    rewrite ?cache_get_deleted;
    cbn [cached_truthy cached_is_not_None truthy fst];
    try change (calls (cache_delete _ w')) with (calls w');
    try change (calls (cache_delete _ w)) with (calls w);
    rewrite ?Hc;
    repeat match goal with
    | |- context [extract_info X ?u ?s ?o ?t (cache_delete ?k w')] =>
        let E := fresh "E" in
        pose proof (extract_info_answer X u s o t (cache_delete k w)
                      (cache_delete k w') Hc) as E;
        destruct (extract_info X u s o t (cache_delete k w')) as [[[? ?] ?] ?];
        destruct (extract_info X u s o t (cache_delete k w)) as [[[? ?] ?] ?];
        cbn [fst] in E; simplify_eq
    | |- context [extract_info X ?u ?s ?o ?t w'] =>
        let E := fresh "E" in
        pose proof (extract_info_answer X u s o t w w' Hc) as E;
        destruct (extract_info X u s o t w') as [[[? ?] ?] ?];
        destruct (extract_info X u s o t w) as [[[? ?] ?] ?];
        cbn [fst] in E; simplify_eq
    end;
    unfold fast_meta_finish, store_or_500, uncaught;
    repeat case_match; simplify_eq; done.
Qed.

(** With [latest], a route that keeps data works as if its entry had
    never been there, and stores the body it answers with. *)
Lemma bypass_forgets r qs w key :
  r <> Download -> latest X qs = true -> cache_key X r qs = Some key ->
  handle X r qs w = handle X r qs (cache_delete key w)
  /\ (forall b, (handle X r qs w).1 = Resp 200 b ->
       cache (handle X r qs w).2 !! key = Some (0, CData b)).
Proof.
  intros Hr Hl Hk. revert Hl Hk.
  destruct r; try done; open_route; intros -> [= <-];
    (split; [by rewrite cache_delete_twice|]);
    rewrite ?cache_get_deleted;
    cbn [cached_truthy cached_is_not_None truthy];
    unfold fast_meta_finish, store_or_500, uncaught, jsonify_with, jsonify;
    repeat match goal with
    | |- context [extract_info X ?u ?s ?o ?t ?w] =>
        let E := fresh "E" in
        pose proof (extract_info_triple X u s o t w) as E;
        destruct (extract_info X u s o t w) as [[[? ?] ?] ?];
        cbn [fst snd] in E
    | |- context [if ?b then _ else _] => destruct b eqn:?
    | |- context [match ?x with _ => _ end] => destruct x eqn:?
    end;
    cbn [fst snd cache cache_set set_cache default from_option];
    intros b Hb; simplify_eq;
    try (by rewrite lookup_insert_eq);
    try (destruct E as [[-> ->] | (_ & [? ->] & [? | [? | ?]])];
         simplify_eq; done).
Qed.

(** C2, as the code has it.  On every route but [/download], a request
    that has its parameters, asks for the gateway and carries [latest]
    is not answered from the cache: the routes that keep data delete
    their entry first, the others keep none; the gateway is called,
    once; the reply is made from the answer of the gateway, whatever
    the cache holds; and a route that keeps data leaves no trace of the
    entry it found: it ends in the state it would have ended in without
    the entry, the body of a reply 200 stored under the key. *)
Theorem bypass_recomputes (r : Route) (qs : string) (w : World) (c : Call) :
  r <> Download ->
  latest X qs = true ->
  missing_params X r qs = false ->
  gateway_call X r qs = Some c ->
  (forall key, cache_key X r qs = Some key ->
     cache (after_bypass X r qs w) !! key = None)
  /\ answers_from_cache X r qs w = false
  /\ calls (handle X r qs w).2 = calls w ++ [c]
  /\ (forall w', calls w' = calls w ->
      (handle X r qs w').1 = (handle X r qs w).1)
  /\ (forall key, cache_key X r qs = Some key ->
      handle X r qs w = handle X r qs (cache_delete key w)
      /\ (forall b, (handle X r qs w).1 = Resp 200 b ->
           cache (handle X r qs w).2 !! key = Some (0, CData b))).
Proof.
  intros Hr Hl Hm Hg.
  pose proof (bypass_misses r qs w Hr Hl) as Hc.
  split; [|split; [done|split; [|split]]].
  - intros key Hk. unfold after_bypass. rewrite Hk, Hl.
    destruct r; try done; cbn [keeps_data cache_delete set_cache cache];
      apply lookup_delete_eq.
  - unfold gateway_call in Hg.
    destruct (gateway_args X r qs) as [[[[url sq] opts] timeout]|] eqn:Ha; [|done].
    injection Hg as <-.
    destruct (handle_gateway r qs w _ _ _ _ Ha Hm Hc)
      as (info & err & code & w1 & E & -> & _).
    destruct (extract_info_world X url sq (Some opts) timeout
                (after_bypass X r qs w)) as [Hcalls _].
    rewrite E in Hcalls. cbn [snd] in Hcalls.
    by rewrite Hcalls, after_bypass_calls.
  - intros w' Hw'. by apply bypass_reply.
  - intros key Hk. by apply bypass_forgets.
Qed.

(** ** What the cache holds *)

Lemma pruned_sub w : pruned X w ⊆ cache w.
Proof.
  unfold pruned. destruct (_ <? _)%nat; [apply map_filter_subseteq|done].
Qed.

Lemma pruned_small w :
  (size (cache w) <= CACHE_THRESHOLD)%nat -> pruned X w = cache w.
Proof.
  intros Hs. unfold pruned. by rewrite (proj2 (Nat.ltb_ge _ _) Hs).
Qed.

(** A request leaves the cache as it found it, its entry deleted if it
    carried [latest], or stores one entry, under its key, in what the
    pruning has left of that. *)
Lemma handle_world r qs w :
  cache (handle X r qs w).2 = cache (after_bypass X r qs w)
  \/ exists key e c m,
       cache (handle X r qs w).2 = <[key := (e, c)]> m
       /\ cache_key X r qs = Some key /\ written_by X r qs e c
       /\ m ⊆ cache (after_bypass X r qs w)
       /\ ((size (cache (after_bypass X r qs w)) <= CACHE_THRESHOLD)%nat ->
           m = cache (after_bypass X r qs w)).
Proof.
  unfold written_by.
  destruct r; open_route;
  unfold fast_meta_finish, store_or_500, uncaught, jsonify_with;
  repeat match goal with
  | |- context [extract_info ?X ?u ?s ?o ?t ?w] =>
      let H := fresh "Hw" in
      pose proof (extract_info_world X u s o t w) as [_ H];
      destruct (extract_info X u s o t w) as [[[? ?] ?] ?]; cbn [snd] in H
  | |- context [if ?b then _ else _] => destruct b eqn:?
  | |- context [match ?x with _ => _ end] => destruct x eqn:?
  end;
  cbn [snd fst cache cache_set cache_delete set_cache log_call] in *;
  try (left; congruence).
  all: right; eexists _, _, _, _; (split; [reflexivity|]).
  all: (split; [reflexivity|]).
  all: (split; [|
    match goal with
    | |- pruned X ?w1 ⊆ _ /\ _ =>
        pose proof (pruned_sub w1) as Hsub;
        pose proof (pruned_small w1) as Hsmall;
        cbn [cache log_call cache_delete set_cache] in Hsub, Hsmall;
        rewrite ?Hw in Hsub, Hsmall;
        cbn [cache log_call cache_delete set_cache] in Hsub, Hsmall;
        by split
    end]).
  all: first
    [ by left; repeat split; eauto;
        repeat match goal with
        | H : context [nonempty ?p] |- _ => destruct (nonempty p)
        end
    | right; split; [done|]; eexists; split; [done|]; intros ?;
        first [congruence | by eauto] ].
Qed.

Lemma after_bypass_ok r qs w : cache_ok X w -> cache_ok X (after_bypass X r qs w).
Proof.
  intros Hok. unfold after_bypass. repeat case_match; try done.
  intros key e c. unfold cache_delete, set_cache. cbn [cache].
  intros [_ Hl]%lookup_delete_Some. by apply Hok.
Qed.

Lemma handle_ok r qs w : cache_ok X w -> cache_ok X (handle X r qs w).2.
Proof.
  intros Hok%(after_bypass_ok r qs). intros key' e' c'.
  destruct (handle_world r qs w)
    as [E | (key & e & c & m & E & Hk & Hwr & Hsub & _)];
    rewrite E; [apply Hok|].
  destruct (decide (key = key')) as [<- | Hne].
  - rewrite lookup_insert_eq. intros [= <- <-]. by exists r, qs.
  - rewrite lookup_insert_ne by done. intros Hl. eapply Hok.
    by eapply lookup_weaken.
Qed.

Lemma reachable_ok w : reachable X w -> cache_ok X w.
Proof.
  induction 1 as [t | w r qs _ IH | w d _ IH _].
  - intros key e c. unfold start. cbn [cache]. by rewrite lookup_empty.
  - by apply handle_ok.
  - exact IH.
Qed.

Lemma cache_key_route r qs key :
  cache_key X r qs = Some key -> route_of_key key = Some r.
Proof. destruct r; intros [= <-]; reflexivity. Qed.

Lemma nonempty_false s : nonempty s = false -> s = EmptyString.
Proof. by destruct s. Qed.

Lemma sep_pair_empty a b : ":" = a +:+ ":" +:+ b -> a = EmptyString /\ b = EmptyString.
Proof.
  destruct a as [|c a].
  - change (EmptyString +:+ ":" +:+ b) with (String ":" b). by intros [= <-].
  - change (String c a +:+ ":" +:+ b) with (String c (a +:+ ":" +:+ b)).
    intros [= <- H]. by destruct a.
Qed.

Lemma cache_key_inj r qs qs' key :
  cache_key X r qs = Some key -> cache_key X r qs' = Some key ->
  (r = Download -> qs = qs')
  /\ (keeps_data r = true -> missing_params X r qs = true ->
      missing_params X r qs' = true).
Proof.
  destruct r; open_route; intros H1 H2; try discriminate;
    apply (inj Some) in H1; apply (inj Some) in H2; subst key;
    (split; [try discriminate|try discriminate]);
    try (intros _); try (intros Hm);
    unfold full_path in *;
    repeat match goal with
    | H : ?a +:+ _ = ?a +:+ _ |- _ => apply (inj (String.append a)) in H
    end;
    try done;
    repeat match goal with
    | H : context [nonempty ?p] |- _ =>
        let E := fresh "E" in
        destruct (nonempty p) eqn:E; try discriminate;
        try apply nonempty_false in E; subst
    end;
    try done.
  all: symmetry in H2; apply sep_pair_empty in H2 as [-> ->]; done.
Qed.

(** ** Missing parameters *)

(** A request without its parameters finds nothing under its key. *)
Lemma missing_not_cached r qs w key :
  cache_ok X w -> keeps_data r = true -> missing_params X r qs = true ->
  cache_key X r qs = Some key ->
  cache_get key (after_bypass X r qs w) = CData PNone.
Proof.
  intros Hok%(after_bypass_ok r qs) Hk Hm Hkey. unfold cache_get.
  destruct (cache (after_bypass X r qs w) !! key) as [[e c]|] eqn:Hl; [|done].
  destruct (Hok _ _ _ Hl) as (r' & qs' & Hkey' & Hwr).
  assert (r' = r) as ->.
  { apply cache_key_route in Hkey, Hkey'. congruence. }
  destruct (cache_key_inj r qs qs' key Hkey Hkey') as [_ Hmiss].
  destruct Hwr as [(_ & Hm' & _) | [-> _]]; [|done].
  rewrite Hmiss in Hm' by done. done.
Qed.

(** C8.  On every route, in every state the process can reach, a
    request without its required parameters is answered with status
    400 and a body [{error: message}], and no call leaves the
    application. *)
Theorem missing_params_400 (r : Route) (qs : string) (w : World) :
  reachable X w ->
  missing_params X r qs = true ->
  exists msg,
    (handle X r qs w).1 = Resp 400 (error_body msg)
    /\ calls (handle X r qs w).2 = calls w.
Proof.
  intros Hok%reachable_ok Hm.
  destruct (keeps_data r) eqn:Hk.
  - destruct (cache_key X r qs) as [key|] eqn:Hkey; [|by destruct r].
    pose proof (missing_not_cached r qs w key Hok Hk Hm Hkey) as Hget.
    revert Hm Hkey Hget. destruct r; try done; open_route;
      intros Hm [= <-] ->; cbn [cached_truthy cached_is_not_None truthy];
      rewrite ?Hm;
      repeat match goal with
      | H : context [nonempty ?p] |- _ => destruct (nonempty p); try discriminate
      end;
      (eexists; split; [reflexivity|by destruct flag]).
  - destruct r; try done.
    3,4: by (revert Hm; open_route; intros ->; eexists).
    1: by (revert Hm; open_route; intros ->; eexists).
    assert (exists msg, api_download_view X qs w = (Resp 400 (error_body msg), w))
      as [msg Hview].
    { revert Hm. unfold api_download_view. open_route. intros ->. by eexists. }
    unfold handle, api_download, cache_cached.
    set (key := "download:" +:+ full_path "/download" qs).
    unfold cache_get.
    destruct (cache w !! key) as [[e c]|] eqn:Hl.
    + destruct (Hok _ _ _ Hl) as (r' & qs' & Hkey' & Hwr).
      assert (cache_key X Download qs = Some key) as Hkey by done.
      assert (r' = Download) as ->.
      { apply cache_key_route in Hkey, Hkey'. congruence. }
      destruct (cache_key_inj Download qs qs' key Hkey Hkey') as [Hq _].
      specialize (Hq eq_refl) as <-.
      destruct Hwr as [(? & _) | (_ & rv & -> & Hrv)]; [done|].
      destruct (Hrv Hm) as [msg' ->].
      destruct ((e =? 0) || (clock w <? e)); cbn [cached_is_not_None].
      * by exists msg'.
      * rewrite Hview. by exists msg.
    + cbn [cached_is_not_None]. rewrite Hview. by exists msg.
Qed.

(** ** Repeated requests *)

Lemma truthy_not_None v : truthy v = true -> cached_is_not_None (CData v) = true.
Proof. by destruct v. Qed.

(** A route that keeps data answers from a true entry under its key. *)
Lemma served_from_cache r qs w key v :
  keeps_data r = true -> latest X qs = false ->
  cache_key X r qs = Some key ->
  cache_get key w = CData v -> truthy v = true ->
  handle X r qs w = (Resp 200 v, w).
Proof.
  intros Hk Hl Hkey Hget Hv. pose proof (truthy_not_None v Hv) as Hn.
  revert Hl Hkey Hget.
  destruct r; try done; open_route; intros -> [= <-] ->;
    cbn [cached_truthy]; by rewrite ?Hv, ?Hn.
Qed.

(** Data in the cache does not expire. *)
Lemma data_stays w key v d :
  cache_ok X w -> cache_get key w = CData v -> truthy v = true ->
  cache_get key (advance d w) = CData v.
Proof.
  intros Hok. unfold cache_get, advance. cbn [cache clock].
  destruct (cache w !! key) as [[e c]|] eqn:Hl; [|done].
  destruct ((e =? 0) || (clock w <? e)) eqn:Hlive;
    [|by intros [= <-]]. intros -> Hv.
  destruct (Hok _ _ _ Hl) as (r & qs & _ & [(_ & _ & -> & _) | (_ & rv & ? & _)]);
    done.
Qed.

Lemma just_stored w key v d :
  cache_get key (advance d (cache_set X key (CData v) None w)) = CData v.
Proof.
  unfold cache_get, advance, cache_set, set_cache. cbn [cache clock].
  by rewrite lookup_insert_eq.
Qed.

(** The failures of the gateway carry a status other than 200. *)
Lemma extract_info_code url sq opts timeout w info err code w' :
  extract_info X url sq opts timeout w = (info, err, code, w') ->
  truthy err = true -> code = Some 504 \/ code = Some 404 \/ code = Some 500.
Proof.
  unfold extract_info. repeat case_match; intros; simplify_eq; try done; eauto.
Qed.

Lemma first_success r qs w body :
  cache_ok X w -> keeps_data r = true -> latest X qs = false ->
  (handle X r qs w).1 = Resp 200 body -> truthy body = true ->
  exists key,
    cache_key X r qs = Some key
    /\ forall d, cache_get key (advance d (handle X r qs w).2) = CData body.
Proof.
  intros Hok Hk Hl Hr Hb. revert Hl Hr.
  destruct r; try discriminate Hk; open_route; intros ->;
    unfold fast_meta_finish, store_or_500;
    (eexists; split; [reflexivity|]); revert Hr;
    repeat match goal with
    | |- context [extract_info ?X ?u ?s ?o ?t ?w] =>
        let E := fresh "E" in
        destruct (extract_info X u s o t w) as [[[? ?] ?] ?] eqn:E;
        pose proof (extract_info_code _ _ _ _ _ _ _ _ _ E)
    | |- context [if ?b then _ else _] => destruct b eqn:?
    | |- context [match ?x with _ => _ end] => destruct x eqn:?
    end;
    cbn [fst snd]; unfold jsonify, jsonify_cached, jsonify_with; intros Hr d;
    try match goal with
        | Hc : truthy ?e = true -> _, Ht : truthy ?e = true |- _ =>
            destruct (Hc Ht) as [-> | [-> | ->]]; discriminate Hr
        end;
    try match type of Hr with
        | context [cache_get ?k ?w] =>
            destruct (cache_get k w) eqn:Hget; [|discriminate Hr]
        end;
    unfold jsonify in *; simplify_eq;
    try match goal with
        | Hc : true = true -> _ |- _ =>
            destruct (Hc eq_refl) as [-> | [-> | ->]]; discriminate Hr
        end;
    first [ by apply just_stored | by apply data_stays ].
Qed.

(** C1, as the code has it.  On a route that keeps data, when a request
    without [latest] is answered with status 200 and a body that counts
    as true, the same request, whenever it comes next, is answered with
    the same reply from the cache: the process is left as it was, and
    no call leaves the application. *)
Theorem repeat_served_from_cache (r : Route) (qs : string) (w : World)
  (body : PyVal) (d : Z) :
  reachable X w ->
  keeps_data r = true ->
  latest X qs = false ->
  (handle X r qs w).1 = Resp 200 body ->
  truthy body = true ->
  let w1 := advance d (handle X r qs w).2 in
  handle X r qs w1 = (Resp 200 body, w1)
  /\ calls (handle X r qs w1).2 = calls (handle X r qs w).2.
Proof.
  intros Hok%reachable_ok Hk Hl Hr Hb w1.
  destruct (first_success r qs w body Hok Hk Hl Hr Hb) as (key & Hkey & Hget).
  rewrite (served_from_cache r qs w1 key body Hk Hl Hkey (Hget d) Hb).
  done.
Qed.

(** X12.  The routes that keep nothing call the gateway for every request
    that has its parameters. *)
Lemma uncached_routes_call (r : Route) (qs : string) (w : World) (c : Call) :
  cache_key X r qs = None ->
  missing_params X r qs = false ->
  gateway_call X r qs = Some c ->
  calls (handle X r qs w).2 = calls w ++ [c].
Proof.
  intros Hkey Hm Hg.
  assert (answers_from_cache X r qs w = false) as Hc.
  { unfold answers_from_cache. by rewrite Hkey. }
  unfold gateway_call in Hg.
  destruct (gateway_args X r qs) as [[[[url sq] opts] timeout]|] eqn:Ha; [|done].
  injection Hg as <-.
  destruct (handle_gateway r qs w _ _ _ _ Ha Hm Hc)
    as (info & err & code & w1 & E & -> & _).
  destruct (extract_info_world X url sq (Some opts) timeout
              (after_bypass X r qs w)) as [Hcalls _].
  rewrite E in Hcalls. cbn [snd] in Hcalls.
  by rewrite Hcalls, after_bypass_calls.
Qed.

(** X13.  [/download] keeps the reply it has computed for [STREAM_TIMEOUT]
    seconds: the same request is answered from the cache before that
    time has passed, and computed again after it. *)
Lemma download_repeat (qs : string) (w : World) (d : Z) :
  answers_from_cache X Download qs w = false ->
  (forall e, (handle X Download qs w).1 <> Unhandled e) ->
  let w1 := (handle X Download qs w).2 in
  (d < STREAM_TIMEOUT ->
   handle X Download qs (advance d w1)
   = ((handle X Download qs w).1, advance d w1))
  /\ (STREAM_TIMEOUT <= d -> clock w1 + STREAM_TIMEOUT <> 0 ->
      answers_from_cache X Download qs (advance d w1) = false).
Proof.
  unfold answers_from_cache, after_bypass, handle, api_download, cache_cached.
  cbn [cache_key keeps_data].
  set (key := "download:" +:+ full_path "/download" qs).
  intros -> Hrv.
  destruct (api_download_view X qs w) as [rv w'] eqn:Hview.
  destruct rv as [st body|e]; [|by destruct (Hrv e)].
  cbn [fst snd]. clear Hrv.
  assert (forall d, cache_get key (advance d (cache_set X key (CView (Resp st body))
                                     (Some STREAM_TIMEOUT) w'))
          = if (clock w' + STREAM_TIMEOUT =? 0)
               || (clock w' + d <? clock w' + STREAM_TIMEOUT)
            then CView (Resp st body) else CData PNone) as Hget.
  { intros d'. unfold cache_get, advance, cache_set, set_cache.
    cbn [cache clock default]. by rewrite lookup_insert_eq. }
  split.
  - intros Hd. rewrite Hget.
    rewrite (proj2 (Z.ltb_lt (clock w' + d) _)) by lia.
    by rewrite orb_true_r.
  - intros Hd Hnz. rewrite Hget. cbn [cache_set set_cache clock] in Hnz.
    rewrite (proj2 (Z.eqb_neq _ _) Hnz), (proj2 (Z.ltb_ge _ _)) by lia.
    done.
Qed.

End Routes.

(** ** The properties on sample runs *)

(** C1, as it is stated, fails on [/api/all]: the route keeps nothing,
    the second of two identical requests calls the gateway again and
    answers what the library says then. *)
Lemma all_not_cached :
  let qs := "url=x" in
  let w1 := (handle sample_outside All qs (start 100)).2 in
  latest sample_outside qs = false
  /\ missing_params sample_outside All qs = false
  /\ calls w1 = [YdlCall ydl_opts_full (Some "x") (Some 30)]
  /\ calls (handle sample_outside All qs w1).2
     = [YdlCall ydl_opts_full (Some "x") (Some 30);
        YdlCall ydl_opts_full (Some "x") (Some 30)]
  /\ (handle sample_outside All qs w1).1
     <> (handle sample_outside All qs (start 100)).1.
Proof. by vm_compute. Qed.

Lemma repeat_served_from_cache_witness :
  let qs := "search=cats" in
  let w := start 100 in
  (reachable sample_outside w
   /\ keeps_data Meta = true
   /\ latest sample_outside qs = false
   /\ (handle sample_outside Meta qs w).1 = Resp 200 sample_meta_body
   /\ truthy sample_meta_body = true)
  /\ calls (handle sample_outside Meta qs
             (advance 50 (handle sample_outside Meta qs w).2)).2
     = calls (handle sample_outside Meta qs w).2.
Proof.
  split; [by repeat split; [constructor|..]; vm_compute|].
  apply (repeat_served_from_cache sample_outside Meta "search=cats" (start 100)
           sample_meta_body 50); by first [constructor | vm_compute].
Defined.

(** C2, as it is stated, fails on [/download]: the decorator looks the
    whole path up, [latest] included, and answers a repeated request
    from the cache without a call of the gateway. *)
Lemma download_ignores_bypass :
  let qs := "url=x&latest=1" in
  let w1 := (handle sample_outside Download qs (start 100)).2 in
  latest sample_outside qs = true
  /\ missing_params sample_outside Download qs = false
  /\ cache_get "download:/download?url=x&latest=1" w1
     = CView (handle sample_outside Download qs (start 100)).1
  /\ calls w1 = [YdlCall ydl_opts_full (Some "x") None]
  /\ calls (handle sample_outside Download qs w1).2 = calls w1.
Proof. by vm_compute. Qed.

Lemma bypass_recomputes_witness :
  let qs := "search=cats&latest=1" in
  let w1 := (handle sample_outside Meta "search=cats" (start 100)).2 in
  (Meta <> Download
   /\ latest sample_outside qs = true
   /\ missing_params sample_outside Meta qs = false
   /\ gateway_call sample_outside Meta qs
      = Some (YdlCall ydl_opts_meta (Some "ytsearch:cats") (Some 6))
   /\ cache_key sample_outside Meta qs = Some "meta:cats:"
   /\ cache_get "meta:cats:" w1 = CData sample_meta_body
   /\ (handle sample_outside Meta qs w1).1 <> Resp 200 sample_meta_body)
  /\ calls (handle sample_outside Meta qs w1).2
     = calls w1 ++ [YdlCall ydl_opts_meta (Some "ytsearch:cats") (Some 6)]
  /\ handle sample_outside Meta qs w1
     = handle sample_outside Meta qs (cache_delete "meta:cats:" w1)
  /\ (forall b, (handle sample_outside Meta qs w1).1 = Resp 200 b ->
       cache (handle sample_outside Meta qs w1).2 !! "meta:cats:"
       = Some (0, CData b)).
Proof.
  split; [by vm_compute|].
  destruct (bypass_recomputes sample_outside Meta "search=cats&latest=1"
              (handle sample_outside Meta "search=cats" (start 100)).2
              (YdlCall ydl_opts_meta (Some "ytsearch:cats") (Some 6)))
    as (_ & _ & Hcalls & _ & Hkey); [by vm_compute..|].
  split; [exact Hcalls|]. by apply Hkey.
Defined.

Lemma search_mode_witness :
  nonempty "cats" = true
  /\ calls (extract_info sample_outside None (Some "cats") None (Some 6)
             (start 100)).2
     = [YdlCall ydl_opts_full (Some "ytsearch:cats") (Some 6)].
Proof.
  split; [done|].
  apply (search_mode sample_outside None "cats" None (Some 6) (start 100)).
  done.
Defined.

(** A result set with two entries, and an empty one. *)
Example search_first_entry :
  (extract_info search_outside None (Some "cats") None (Some 6) (start 100)).1
  = (sample_info 7, PNone, None)
  /\ (handle search_outside Audio "search=cats" (start 100)).1
     = Resp 200 (PDict [("audio_formats", PList [
         format_record sample_progressive (PStr "https://cdn/18") "progressive"
           (PInt 2500000) "2.50 MB";
         format_record sample_audio_only (PStr "https://cdn/140") "audio-only"
           (PInt 0) "0 B"])]).
Proof. by vm_compute. Qed.

Example search_no_results :
  (extract_info empty_outside None (Some "cats") None (Some 6) (start 100)).1
  = (PNone, error_body "No search results", Some 404)
  /\ (handle empty_outside All "search=cats" (start 100)).1
     = Resp 404 (error_body "No search results").
Proof. by vm_compute. Qed.

Lemma timeout_and_failure_witness :
  (gateway_args slow_outside Meta "search=cats"
   = Some (None, Some "cats", ydl_opts_meta, Some 6)
   /\ 6 < elapsed (gateway_run slow_outside None (Some "cats")
                     (Some ydl_opts_meta) (start 100)))
  /\ (handle slow_outside Meta "search=cats" (start 100)).1
     = Resp 504 (PDict [("error", PStr "yt-dlp timed out")])
  /\ (handle failing_outside Meta "search=cats" (start 100)).1
     = Resp 500 (PDict [("error", PStr "ERROR: Unsupported URL")]).
Proof.
  split; [by vm_compute|].
  destruct (timeout_and_failure slow_outside) as (_ & Hroute & _).
  destruct (timeout_and_failure failing_outside) as (_ & _ & _ & Hfail).
  split.
  - apply (Hroute Meta "search=cats" (start 100) None (Some "cats")
             ydl_opts_meta 6); by vm_compute.
  - apply (Hfail Meta "search=cats" (start 100) None (Some "cats")
             ydl_opts_meta (Some 6)); by vm_compute.
Defined.

Example library_failure :
  (handle failing_outside Instagram "url=https://insta/p/1" (start 100)).1
  = Resp 500 (error_body "ERROR: Unsupported URL")
  /\ calls (handle failing_outside Instagram "url=https://insta/p/1" (start 100)).2
     = [YdlCall ydl_opts_meta (Some "https://insta/p/1") (Some 20)].
Proof. by vm_compute. Qed.

Lemma missing_params_400_witness :
  (reachable sample_outside (handle sample_outside Download "latest=1" (start 100)).2
   /\ missing_params sample_outside Download "latest=1" = true)
  /\ exists msg,
       (handle sample_outside Download "latest=1"
          (handle sample_outside Download "latest=1" (start 100)).2).1
       = Resp 400 (error_body msg)
       /\ calls (handle sample_outside Download "latest=1"
                   (handle sample_outside Download "latest=1" (start 100)).2).2
          = calls (handle sample_outside Download "latest=1" (start 100)).2.
Proof.
  assert (reachable sample_outside
            (handle sample_outside Download "latest=1" (start 100)).2) as Hr
    by (apply reach_request, reach_start).
  split; [by split|].
  by apply (missing_params_400 sample_outside Download "latest=1").
Defined.

(** * Further properties of the code *)

(** ** Durations *)

Lemma split_colon_length (s cur : string) :
  length (split_go ":" 0 cur s) = S (count_char ":" s).
Proof.
  revert cur. induction s as [|c s IH]; intros cur; [done|].
  cbn [split_go String.prefix count_char].
  destruct (Ascii.ascii_dec ":" c) as [<-|Hne].
  - assert (String.prefix EmptyString s = true) as -> by (by destruct s).
    cbn. by rewrite IH.
  - rewrite IH. destruct (Ascii.eqb_spec c ":") as [->|]; [done|]. done.
Qed.

Lemma py_int_raises (s : string) (e : PyExc) :
  py_int s = Raise e -> e = ValueError s \/ e = DigitLimit.
Proof.
  unfold py_int. repeat case_match; intros [= <-]; tauto.
Qed.

Lemma py_int_too_long (s : string) :
  isdigit s = true ->
  INT_MAX_STR_DIGITS < Z.of_nat (String.length s) ->
  py_int s = Raise DigitLimit.
Proof.
  unfold isdigit. intros [Hne Hs]%andb_true_iff Hlen.
  rewrite <- (count_digits_all s Hs) in Hlen.
  destruct s as [|c s]; [done|].
  pose proof Hs as Hs'. apply andb_true_iff in Hs' as [Hc _].
  unfold py_int. cbn [skip_space]. rewrite (digit_not_space c Hc).
  assert (match String c s with
          | String "+" r => (false, r)
          | String "-" r => (true, r)
          | _ => (false, String c s)
          end = (false, String c s)) as ->.
  { destruct c as [[] [] [] [] [] [] [] []]; try done. }
  rewrite Hc, (int_body_digits _ _ Hs).
  by rewrite (proj2 (Z.ltb_lt _ _) Hlen).
Qed.

Lemma one_part_duration (s : string) :
  no_colon s = true ->
  (isdigit s = true -> Z.of_nat (String.length s) <= INT_MAX_STR_DIGITS) ->
  to_iso_duration s
  = Ok (if isdigit s then "PT" +:+ str_int (decimal s) +:+ "S" else "PT0S").
Proof.
  intros Hs Hlen. unfold to_iso_duration.
  destruct s as [|c s]; [done|].
  cbn [String.eqb]. unfold split. rewrite split_go_piece_end by done.
  cbn [String.rev String.rev_app]. rewrite app_empty_l.
  destruct (isdigit (String c s)) eqn:Hd; [|done].
  rewrite py_int_digits by auto. cbn [mbind res_bind].
  by rewrite (py_int_to_str (String c s)) by (apply py_int_digits; auto).
Qed.

Lemma one_part_too_long (s : string) :
  no_colon s = true -> isdigit s = true ->
  INT_MAX_STR_DIGITS < Z.of_nat (String.length s) ->
  to_iso_duration s = Raise DigitLimit.
Proof.
  intros Hs Hd Hlen. unfold to_iso_duration.
  destruct s as [|c s]; [done|].
  cbn [String.eqb]. unfold split. rewrite split_go_piece_end by done.
  cbn [String.rev String.rev_app]. rewrite app_empty_l, Hd.
  by rewrite py_int_too_long.
Qed.

(** X2.  An ASCII string without a colon gives the zero duration when
    it is not made of digits and its number of seconds when it is made
    of digits, no more of them than the interpreter reads; made of more
    digits it raises, the guard [isdigit] of the one-part branch
    notwithstanding.  A string with three colons or more gives the zero
    duration. *)
Theorem one_part_or_many (s : string) :
  ascii_only s = true ->
  (no_colon s = true -> isdigit s = false -> to_iso_duration s = Ok "PT0S")
  /\ (no_colon s = true -> isdigit s = true ->
      Z.of_nat (String.length s) <= INT_MAX_STR_DIGITS ->
      to_iso_duration s = Ok ("PT" +:+ str_int (decimal s) +:+ "S"))
  /\ (no_colon s = true -> isdigit s = true ->
      INT_MAX_STR_DIGITS < Z.of_nat (String.length s) ->
      to_iso_duration s = Raise DigitLimit)
  /\ ((3 <= count_char ":" s)%nat -> to_iso_duration s = Ok "PT0S").
Proof.
  intros _. split; [|split; [|split]].
  - intros Hs Hd. rewrite one_part_duration by (done || congruence).
    by rewrite Hd.
  - intros Hs Hd Hlen. rewrite one_part_duration by done. by rewrite Hd.
  - apply one_part_too_long.
  - intros Hc. unfold to_iso_duration.
    destruct s as [|c s]; [done|]. cbn [String.eqb].
    pose proof (split_colon_length (String c s) EmptyString) as Hl.
    fold (split ":" (String c s)) in Hl.
    destruct (split ":" (String c s)) as [|a [|b [|x [|y l]]]];
      cbn [length] in Hl; try lia. done.
Qed.

Lemma one_part_or_many_witness :
  (ascii_only "212" = true /\ no_colon "212" = true /\ isdigit "212" = true
   /\ Z.of_nat (String.length "212") <= INT_MAX_STR_DIGITS)
  /\ to_iso_duration "212" = Ok "PT212S".
Proof.
  split; [by vm_compute|].
  destruct (one_part_or_many "212") as (_ & Hdigits & _); [done|].
  rewrite Hdigits; by vm_compute.
Defined.

(** X3.  When [to_iso_duration] raises on an ASCII string, the
    exception is the one [int] raises on one of the pieces between its
    colons, for a literal that is not valid or has more digits than the
    interpreter reads, and the string has one or two colons, or none
    when the exception is the one of too many digits; when it returns,
    the result begins with [PT]. *)
Theorem duration_outcomes (s : string) :
  ascii_only s = true ->
  (forall e, to_iso_duration s = Raise e ->
     ((count_char ":" s = 1 \/ count_char ":" s = 2)%nat
      \/ (count_char ":" s = 0%nat /\ e = DigitLimit))
     /\ exists piece,
          In piece (split ":" s) /\ py_int piece = Raise e
          /\ (e = ValueError piece \/ e = DigitLimit))
  /\ (forall r, to_iso_duration s = Ok r -> starts_with "PT" r = true).
Proof.
  intros _.
  pose proof (split_colon_length s EmptyString) as Hl.
  fold (split ":" s) in Hl.
  assert (forall piece e, py_int piece = Raise e ->
            py_int piece = Raise e /\ (e = ValueError piece \/ e = DigitLimit))
    as Hint.
  { intros piece e E. split; [done|by apply py_int_raises]. }
  unfold to_iso_duration.
  destruct (String.eqb s EmptyString); [split; [done|by intros r [= <-]]|].
  destruct (split ":" s) as [|a [|b [|c [|d l]]]]; cbn [length] in Hl.
  - split; [done|by intros r [= <-]].
  - destruct (isdigit a) eqn:Hd; [|split; [done|by intros r [= <-]]].
    destruct (py_int a) as [av|ea] eqn:Ea; cbn [mbind res_bind].
    + rewrite (py_int_to_str a av Ea). cbn [mbind res_bind].
      split; [done|by intros r [= <-]].
    + split; [|done]. intros e [= <-].
      destruct (py_int_raises a ea Ea) as [-> | ->].
      * exfalso. revert Ea. unfold py_int, isdigit in *.
        apply andb_true_iff in Hd as [Hne Hd].
        destruct a as [|c0 a]; [done|].
        pose proof Hd as Hd'. apply andb_true_iff in Hd' as [Hc _].
        cbn [skip_space]. rewrite (digit_not_space c0 Hc).
        assert (match String c0 a with
                | String "+" r => (false, r)
                | String "-" r => (true, r)
                | _ => (false, String c0 a)
                end = (false, String c0 a)) as ->.
        { destruct c0 as [[] [] [] [] [] [] [] []]; try done. }
        rewrite Hc, (int_body_digits _ _ Hd). cbn [all_chars].
        by destruct (_ <? _).
      * split; [right; split; [lia|done]|].
        exists a. split; [by left|]. split; [done|by right].
  - split.
    + intros e He. split; [left; left; lia|].
      destruct (py_int a) as [av|] eqn:Ea; cbn [mbind res_bind] in He.
      * rewrite (py_int_to_str a av Ea) in He. cbn [mbind res_bind] in He.
        destruct (py_int b) as [bv|] eqn:Eb; cbn [mbind res_bind] in He.
        -- by rewrite (py_int_to_str b bv Eb) in He.
        -- injection He as <-. exists b.
           split; [cbn; tauto|by apply Hint].
      * injection He as <-. exists a. split; [cbn; tauto|by apply Hint].
    + intros r. destruct (py_int a) as [av|] eqn:Ea; cbn [mbind res_bind]; [|done].
      rewrite (py_int_to_str a av Ea). cbn [mbind res_bind].
      destruct (py_int b) as [bv|] eqn:Eb; cbn [mbind res_bind]; [|done].
      rewrite (py_int_to_str b bv Eb). by intros [= <-].
  - split.
    + intros e He. split; [left; right; lia|].
      destruct (py_int a) as [hv|ea] eqn:Ea; cbn [mbind res_bind] in He.
      * rewrite ?(py_int_to_str a hv Ea) in He.
        destruct (negb (hv =? 0)); cbn [mbind res_bind] in He;
          rewrite ?(py_int_to_str a hv Ea) in He; cbn [mbind res_bind] in He;
          (destruct (py_int b) as [bv|] eqn:Eb; cbn [mbind res_bind] in He;
           [rewrite (py_int_to_str b bv Eb) in He; cbn [mbind res_bind] in He;
            destruct (py_int c) as [cv|] eqn:Ec; cbn [mbind res_bind] in He;
            [by rewrite (py_int_to_str c cv Ec) in He|]|]);
          injection He as <-;
          first [ exists c; split; [cbn; tauto|by apply Hint]
                | exists b; split; [cbn; tauto|by apply Hint] ].
      * injection He as <-. exists a. split; [cbn; tauto|by apply Hint].
    + intros r. destruct (py_int a) as [hv|ea] eqn:Ea; cbn [mbind res_bind]; [|done].
      destruct (negb (hv =? 0)); cbn [mbind res_bind];
        rewrite ?(py_int_to_str a hv Ea); cbn [mbind res_bind];
        (destruct (py_int b) as [bv|] eqn:Eb; cbn [mbind res_bind]; [|done]);
        rewrite (py_int_to_str b bv Eb); cbn [mbind res_bind];
        (destruct (py_int c) as [cv|] eqn:Ec; cbn [mbind res_bind]; [|done]);
        rewrite (py_int_to_str c cv Ec); by intros [= <-].
  - split; [done|by intros r [= <-]].
Qed.

Lemma duration_outcomes_witness :
  (ascii_only "7:xx" = true /\ to_iso_duration "7:xx" = Raise (ValueError "xx"))
  /\ ((count_char ":" "7:xx" = 1 \/ count_char ":" "7:xx" = 2)%nat
      \/ (count_char ":" "7:xx" = 0%nat /\ ValueError "xx" = DigitLimit)).
Proof.
  split; [by vm_compute|].
  by apply (proj1 (duration_outcomes "7:xx" eq_refl) (ValueError "xx")).
Defined.

Lemma valid_durations_witness :
  (isdigit "1" = true /\ isdigit "02" = true /\ isdigit "03" = true
   /\ Z.of_nat (String.length "1") <= INT_MAX_STR_DIGITS
   /\ Z.of_nat (String.length "02") <= INT_MAX_STR_DIGITS
   /\ Z.of_nat (String.length "03") <= INT_MAX_STR_DIGITS)
  /\ to_iso_duration ("1" +:+ ":" +:+ "02" +:+ ":" +:+ "03") = Ok "PT1H2M3S".
Proof.
  split; [by vm_compute|].
  rewrite (proj1 (valid_durations "1" "02" "03" eq_refl eq_refl eq_refl
                    ltac:(by vm_compute) ltac:(by vm_compute)
                    ltac:(by vm_compute))).
  by vm_compute.
Defined.

(** [str] of a natural number is its digits, and [int] reads them back. *)
Lemma decimal_from_acc (d : Decimal.uint) (acc : positive) :
  decimal_from (Z.pos acc) (NilEmpty.string_of_uint d)
  = Z.pos (Pos.of_uint_acc d acc).
Proof.
  revert acc. induction d as [|d IH|d IH|d IH|d IH|d IH|d IH|d IH|d IH|d IH|d IH];
    intros acc; cbn [NilEmpty.string_of_uint decimal_from Pos.of_uint_acc];
    [done|..]; rewrite <- IH; f_equal; cbn; lia.
Qed.

Lemma decimal_from_zero (d : Decimal.uint) :
  decimal_from 0 (NilEmpty.string_of_uint d) = Z.of_N (Pos.of_uint d).
Proof.
  induction d as [|d IH|d IH|d IH|d IH|d IH|d IH|d IH|d IH|d IH|d IH];
    cbn [NilEmpty.string_of_uint decimal_from Pos.of_uint]; [done|done|..];
    cbn [Z.of_N]; rewrite <- decimal_from_acc; f_equal.
Qed.

Lemma uint_digits (d : Decimal.uint) :
  all_chars is_digit (NilEmpty.string_of_uint d) = true.
Proof. induction d; cbn; done. Qed.

Lemma str_int_pos (p : positive) :
  str_int (Z.pos p) = NilEmpty.string_of_uint (Pos.to_uint p)
  /\ isdigit (str_int (Z.pos p)) = true
  /\ decimal (str_int (Z.pos p)) = Z.pos p.
Proof.
  assert (str_int (Z.pos p) = NilEmpty.string_of_uint (Pos.to_uint p)) as E.
  { unfold str_int. cbn [Z.to_int NilZero.string_of_int].
    unfold NilZero.string_of_uint.
    pose proof (Unsigned.to_uint_nonnil p).
    by destruct (Pos.to_uint p). }
  split; [done|]. rewrite E. split.
  - unfold isdigit. rewrite uint_digits, andb_true_r.
    pose proof (Unsigned.to_uint_nonnil p).
    by destruct (Pos.to_uint p).
  - unfold decimal. by rewrite decimal_from_zero, Unsigned.of_to.
Qed.

Lemma str_int_nonneg (n : Z) :
  0 <= n -> isdigit (str_int n) = true /\ decimal (str_int n) = n.
Proof.
  destruct n as [|p|p]; [done| |lia]. intros _. apply str_int_pos.
Qed.

Lemma str_int_neg (p : positive) : isdigit (str_int (Z.neg p)) = false.
Proof. done. Qed.

(** The digits of a positive number begin with a digit that is not 0,
    so that a number below [10 ^ k] has [k] digits at most. *)
Lemma decimal_from_lower (s : string) (acc : Z) :
  0 <= acc -> all_chars is_digit s = true ->
  acc * 10 ^ Z.of_nat (String.length s) <= decimal_from acc s.
Proof.
  revert acc. induction s as [|c s IH]; intros acc Hacc Hs.
  - cbn. lia.
  - apply andb_true_iff in Hs as [Hc Hs]. cbn [decimal_from String.length].
    rewrite Nat2Z.inj_succ, Z.pow_succ_r by lia.
    etransitivity; [|apply IH; [|done]].
    + assert (0 <= 10 ^ Z.of_nat (String.length s)) by (apply Z.pow_nonneg; lia).
      nia.
    + lia.
Qed.

Lemma head_not_zero (d : Decimal.uint) :
  Decimal.unorm d = d -> d <> Decimal.D0 Decimal.Nil ->
  exists c s, NilEmpty.string_of_uint d = String c s
    /\ exists k, Ascii.is_nat c = Some (S k).
Proof.
  intros Hn Hz. destruct d; cbn [NilEmpty.string_of_uint];
    try (eexists _, _; split; [reflexivity|by eexists]).
  - by cbv in Hn.
  - exfalso. rewrite DecimalFacts.unorm_D0 in Hn.
    pose proof (DecimalFacts.nb_digits_unorm d) as Hle.
    destruct d; [by apply Hz|..];
      (rewrite Hn in Hle; cbn [Decimal.nb_digits] in Hle;
       specialize (Hle ltac:(done)); lia).
Qed.

Lemma str_int_length (p : positive) (k : Z) :
  0 <= k -> Z.pos p < 10 ^ k ->
  Z.of_nat (String.length (str_int (Z.pos p))) <= k.
Proof.
  intros Hk Hp.
  destruct (str_int_pos p) as (E & Hd & Hv). rewrite E in *.
  assert (Decimal.unorm (Pos.to_uint p) = Pos.to_uint p) as Hn.
  { rewrite <- (DecimalPos.Unsigned.to_of (Pos.to_uint p)).
    by rewrite DecimalPos.Unsigned.of_to. }
  destruct (head_not_zero _ Hn (Unsigned.to_uint_nonzero p))
    as (c & s & Es & d & Hc).
  rewrite Es in *. unfold decimal in Hv. cbn [decimal_from] in Hv.
  rewrite Hc in Hv. cbn [default from_option] in Hv. unfold id in Hv.
  apply andb_true_iff in Hd as [_ Hd]. cbn [all_chars] in Hd.
  apply andb_true_iff in Hd as [_ Hd].
  pose proof (decimal_from_lower s (10 * 0 + Z.of_nat (S d)) ltac:(lia) Hd) as Hlow.
  rewrite Hv in Hlow. cbn [String.length]. rewrite Nat2Z.inj_succ.
  destruct (Z_lt_le_dec (Z.of_nat (String.length s)) k) as [|Hge]; [lia|].
  assert (10 ^ k <= 10 ^ Z.of_nat (String.length s))
    by (apply Z.pow_le_mono_r; lia).
  assert (0 < 10 ^ Z.of_nat (String.length s)) by (apply Z.pow_pos_nonneg; lia).
  nia.
Qed.

(** X4.  In the URL branch of [api_fast_meta] the duration of the
    extraction is put through [str] first: a number of seconds [n >= 0]
    comes out as [PTnS], never split into minutes and hours, and a
    negative number or a missing duration as the zero duration; a
    number of more digits than the interpreter prints raises. *)
Theorem fast_meta_url_duration (X : Outside) (d : list (string * PyVal)) :
  (forall n, dict_get d "duration" = PInt n ->
     Z.abs n < 10 ^ INT_MAX_STR_DIGITS ->
     fast_meta_url X (PDict d)
     = Ok (PDict [("title", dict_get d "title");
                  ("link", dict_get d "webpage_url");
                  ("duration",
                   PStr (if 0 <=? n then "PT" +:+ str_int n +:+ "S" else "PT0S"));
                  ("thumbnail", dict_get d "thumbnail")]))
  /\ (forall n, dict_get d "duration" = PInt n ->
      10 ^ INT_MAX_STR_DIGITS <= Z.abs n ->
      fast_meta_url X (PDict d) = Raise DigitLimit)
  /\ (dict_get d "duration" = PNone ->
      fast_meta_url X (PDict d)
      = Ok (PDict [("title", dict_get d "title");
                   ("link", dict_get d "webpage_url");
                   ("duration", PStr "PT0S");
                   ("thumbnail", dict_get d "thumbnail")])).
Proof.
  split; [|split].
  - intros n Hn Hsmall. unfold fast_meta_url. cbn [py_get mbind res_bind].
    rewrite Hn. cbn [py_str]. rewrite (int_to_str_small n Hsmall).
    cbn [mbind res_bind].
    destruct (Z.leb_spec 0 n) as [Hle|Hlt].
    + destruct (str_int_nonneg n Hle) as [Hd Hv].
      rewrite (one_part_duration (str_int n)).
      * by rewrite Hd, Hv.
      * by apply isdigit_no_colon.
      * intros _. destruct n as [|p|p]; [done| |lia].
        apply str_int_length; [done|lia].
    + destruct n as [|p|p]; try lia.
      rewrite (one_part_duration (str_int (Z.neg p))); [done| |done].
      change (str_int (Z.neg p)) with (String "-" (str_int (Z.pos p))).
      unfold no_colon. cbn [all_chars]. fold (no_colon (str_int (Z.pos p))).
      rewrite isdigit_no_colon; [done|]. apply str_int_pos.
  - intros n Hn Hbig. unfold fast_meta_url. cbn [py_get mbind res_bind].
    rewrite Hn. cbn [py_str]. unfold int_to_str.
    by rewrite (proj2 (Z.leb_le _ _) Hbig).
  - intros Hn. unfold fast_meta_url. cbn [py_get mbind res_bind]. by rewrite Hn.
Qed.

Lemma fast_meta_url_duration_witness :
  (dict_get sample_page "duration" = PInt 3725
   /\ Z.abs 3725 < 10 ^ INT_MAX_STR_DIGITS)
  /\ fast_meta_url sample_outside (PDict sample_page)
     = Ok (PDict [("title", PStr "clip");
                  ("link", PStr "https://youtu.be/abc");
                  ("duration", PStr "PT3725S");
                  ("thumbnail", PStr "https://img/abc.jpg")]).
Proof.
  split; [by vm_compute|].
  by rewrite (proj1 (fast_meta_url_duration sample_outside sample_page) 3725)
    by (by vm_compute).
Defined.

(** ** The link of a search result *)






(** ** The list of formats *)

Lemma format_kind_in (d : list (string * PyVal)) (kind : string) :
  format_kind d = Some kind -> In kind format_kinds.
Proof.
  unfold format_kind, format_kinds. repeat case_match; intros [= <-]; cbn; tauto.
Qed.

Lemma format_entry_some (f e : PyVal) :
  format_entry f = Ok (Some e) -> exists d, f = PDict d /\ entry_of d e.
Proof.
  unfold format_entry. destruct f as [| | | | |d]; try done.
  destruct (truthy (dict_get d "url")) eqn:Hu; cbn [negb]; [|done].
  destruct (format_kind d) as [kind|] eqn:Hk; [|done].
  destruct (format_size_val (get_size_bytes d)) as [shown|] eqn:Hs; [|done].
  cbn [mbind res_bind]. intros [= <-]. exists d. split; [done|].
  exists kind, shown. split; [apply format_record_carries|].
  repeat split; try done. by eapply format_kind_in.
Qed.

Lemma res_map_kept (fs : list PyVal) (es : list (option PyVal)) :
  res_map format_entry fs = Ok es ->
  (length (kept es) <= length fs)%nat
  /\ Forall (fun e => exists d, In (PDict d) fs /\ entry_of d e) (kept es).
Proof.
  revert es. induction fs as [|f fs IH]; intros es.
  - intros [= <-]. cbn. split; [lia|constructor].
  - cbn [res_map]. destruct (format_entry f) as [o|] eqn:Hf; [|done].
    cbn [mbind res_bind].
    destruct (res_map format_entry fs) as [es'|] eqn:Hes; [|done].
    cbn [mbind res_bind]. intros [= <-].
    destruct (IH es' eq_refl) as [Hlen Hall].
    assert (Forall (fun e => exists d, In (PDict d) (f :: fs) /\ entry_of d e)
              (kept es')) as Hall'.
    { eapply Forall_impl; [exact Hall|]. intros e (d & Hin & He).
      exists d. split; [by right|done]. }
    destruct o as [e|]; cbn [kept flat_map option_list app].
    + split; [cbn; fold (kept es'); lia|].
      constructor; [|exact Hall'].
      destruct (format_entry_some f e Hf) as (d & -> & He).
      exists d. split; [by left|done].
    + split; [cbn; fold (kept es'); lia|exact Hall'].
Qed.

Lemma build_formats_list_entries (info : PyVal) (out : list PyVal) :
  build_formats_list info = Ok out ->
  Forall (fun e => exists d, entry_of d e) out.
Proof.
  unfold build_formats_list.
  destruct (py_get_or info "formats" (PList [])) as [formats|]; [|done].
  cbn [mbind res_bind].
  destruct (py_iter formats) as [fs|]; [|done]. cbn [mbind res_bind].
  rewrite formats_loop_spec.
  destruct (res_map format_entry fs) as [es|] eqn:Hes; [|done].
  cbn [mbind res_bind app]. intros [= <-].
  destruct (res_map_kept fs es Hes) as [_ Hall].
  eapply Forall_impl; [exact Hall|]. intros e (d & _ & He). by exists d.
Qed.

(** X6.  Whatever [build_formats_list] returns, every entry of it is
    the record of a descriptor of the input that has a stream URL and
    one of the three kinds: what a caller reads from the entry is the
    URL, the size and the other fields of that descriptor, and its
    kind; the list is not longer than the list of descriptors. *)
Theorem formats_are_records (info : PyVal) (fs out : list PyVal) :
  py_get_or info "formats" (PList []) = Ok (PList fs) ->
  build_formats_list info = Ok out ->
  (length out <= length fs)%nat
  /\ Forall (fun e => exists d, In (PDict d) fs /\ entry_of d e) out.
Proof.
  intros Hf. rewrite (build_formats_list_spec info fs Hf).
  destruct (res_map format_entry fs) as [es|] eqn:Hes; [|done].
  cbn [mbind res_bind]. intros [= <-]. by apply res_map_kept.
Qed.

Lemma formats_are_records_witness :
  let fs := [PDict sample_progressive; PDict sample_audio_only;
             PDict sample_storyboard] in
  let out := [PDict [
                ("format_id", PStr "18"); ("ext", PNone);
                ("kind", PStr "progressive");
                ("filesize_bytes", PInt 2500000); ("filesize", PStr "2.50 MB");
                ("width", PNone); ("height", PNone); ("fps", PNone);
                ("abr", PNone); ("asr", PNone); ("url", PStr "https://cdn/18")];
              PDict [
                ("format_id", PStr "140"); ("ext", PNone);
                ("kind", PStr "audio-only");
                ("filesize_bytes", PInt 0); ("filesize", PStr "0 B");
                ("width", PNone); ("height", PNone); ("fps", PNone);
                ("abr", PNone); ("asr", PNone); ("url", PStr "https://cdn/140")]] in
  (py_get_or (sample_info 0) "formats" (PList []) = Ok (PList fs)
   /\ build_formats_list (sample_info 0) = Ok out)
  /\ (length out <= length fs)%nat
  /\ Forall (fun e => exists d, In (PDict d) fs /\ entry_of d e) out.
Proof.
  split; [by vm_compute|].
  apply (formats_are_records (sample_info 0)); by vm_compute.
Defined.

Lemma res_map_raises {A B} (f : A -> Res B) (l1 l2 : list A) (a : A) (e : PyExc) :
  Forall (fun x => exists b, f x = Ok b) l1 ->
  f a = Raise e ->
  res_map f (l1 ++ a :: l2) = Raise e.
Proof.
  intros Hl1 Ha. induction Hl1 as [|x l1 [b Hx] _ IH]; cbn [app res_map].
  - by rewrite Ha.
  - by rewrite Hx, IH.
Qed.

(** X7.  The edges of [build_formats_list].  Information without a
    [formats] key gives the empty list; information that is no
    dictionary, or whose [formats] is [None], raises; and one
    descriptor on which the loop raises, a value that is no dictionary
    or a kept descriptor whose size is a string, a list or a
    dictionary, makes the whole call raise, whatever the other
    descriptors are. *)
Theorem formats_edges :
  (forall d, assoc "formats" d = None -> build_formats_list (PDict d) = Ok [])
  /\ (forall info, (forall d, info <> PDict d) ->
      build_formats_list info = Raise (AttributeError info "get"))
  /\ (forall d, assoc "formats" d = Some PNone ->
      build_formats_list (PDict d) = Raise (NotIterable PNone))
  /\ (forall info fs1 f fs2 e,
      py_get_or info "formats" (PList []) = Ok (PList (fs1 ++ f :: fs2)) ->
      Forall (fun x => exists r, format_entry x = Ok r) fs1 ->
      format_entry f = Raise e ->
      build_formats_list info = Raise e)
  /\ (forall f, (forall d, f <> PDict d) ->
      format_entry f = Raise (AttributeError f "get"))
  /\ (forall d kind v,
      truthy (dict_get d "url") = true ->
      format_kind d = Some kind ->
      get_size_bytes d = v ->
      (exists s, v = PStr s) \/ (exists l, v = PList l)
      \/ (exists x, v = PDict x) ->
      format_entry (PDict d) = Raise (NotOrderable v)).
Proof.
  repeat split.
  - intros d Hd. unfold build_formats_list, py_get_or, dict_get_or. by rewrite Hd.
  - intros info Hi. destruct info; try done. by destruct (Hi d).
  - intros d Hd. unfold build_formats_list, py_get_or, dict_get_or. by rewrite Hd.
  - intros info fs1 f fs2 e Hf Hall He.
    rewrite (build_formats_list_spec info _ Hf).
    by rewrite (res_map_raises format_entry fs1 fs2 f e Hall He).
  - intros f Hf. destruct f; try done. by destruct (Hf d).
  - intros d kind v Hu Hk Hv Hcase. unfold format_entry.
    rewrite Hu, Hk, Hv. cbn [negb].
    by destruct Hcase as [[? ->] | [[? ->] | [? ->]]].
Qed.

Lemma formats_edges_witness :
  (Forall (fun x => exists r, format_entry x = Ok r) [PDict sample_progressive]
   /\ format_entry (PDict sample_text_size) = Raise (NotOrderable (PStr "12 MiB")))
  /\ build_formats_list
       (PDict [("formats", PList [PDict sample_progressive;
                                  PDict sample_text_size;
                                  PDict sample_audio_only])])
     = Raise (NotOrderable (PStr "12 MiB")).
Proof.
  assert (Forall (fun x => exists r, format_entry x = Ok r)
            [PDict sample_progressive]) as Hall.
  { constructor; [|constructor]. eexists. by vm_compute. }
  split; [split; [exact Hall|by vm_compute]|].
  destruct formats_edges as (_ & _ & _ & Hbad & _).
  apply (Hbad _ [PDict sample_progressive] (PDict sample_text_size)
           [PDict sample_audio_only]); [done|exact Hall|by vm_compute].
Defined.

(** ** Audio and video formats *)

(** X8.  [/api/audio] and [/api/video] split the list of formats by
    kind: an entry of the list is in the audio formats when its kind is
    [audio-only] or [progressive], in the video formats when it is
    [video-only] or [progressive]; so every entry is in one of the two
    lists, a progressive one in both, and no entry is lost. *)
Theorem audio_video_split (info : PyVal) (out : list PyVal) :
  build_formats_list info = Ok out ->
  kinds_data "audio_formats" audio_kinds info
  = Ok (PDict [("audio_formats", PList (List.filter (kind_in audio_kinds) out))])
  /\ kinds_data "video_formats" video_kinds info
     = Ok (PDict [("video_formats", PList (List.filter (kind_in video_kinds) out))])
  /\ Forall (fun e =>
       exists kind, py_get e "kind" = Ok (PStr kind)
         /\ (kind = "progressive" /\ kind_in audio_kinds e = true
                                  /\ kind_in video_kinds e = true
             \/ kind = "audio-only" /\ kind_in audio_kinds e = true
                                    /\ kind_in video_kinds e = false
             \/ kind = "video-only" /\ kind_in audio_kinds e = false
                                    /\ kind_in video_kinds e = true)) out.
Proof.
  intros Hout. unfold kinds_data. rewrite Hout. cbn [mbind res_bind].
  split; [done|]. split; [done|].
  eapply Forall_impl; [exact (build_formats_list_entries info out Hout)|].
  intros e (d & kind & shown & _ & -> & _ & _ & Hin & _).
  exists kind. split; [done|].
  cbn in Hin. destruct Hin as [<- | [<- | [<- | []]]]; tauto.
Qed.

Lemma audio_video_split_witness :
  build_formats_list (sample_info 0)
  = Ok [format_record sample_progressive (PStr "https://cdn/18")
          "progressive" (PInt 2500000) "2.50 MB";
        format_record sample_audio_only (PStr "https://cdn/140")
          "audio-only" (PInt 0) "0 B"]
  /\ kinds_data "video_formats" video_kinds (sample_info 0)
     = Ok (PDict [("video_formats",
                   PList [format_record sample_progressive (PStr "https://cdn/18")
                            "progressive" (PInt 2500000) "2.50 MB"])]).
Proof.
  split; [by vm_compute|].
  destruct (audio_video_split (sample_info 0) _ eq_refl) as (_ & Hv & _).
  rewrite Hv. by vm_compute.
Defined.

(** ** The answers of the gateway *)

(** X9.  The triple [extract_info] returns is either a success, with
    no error and no code, or a failure, with no information, a body
    [{error: message}] and one of the codes 404, 500 and 504. *)
Theorem extract_info_outcome (X : Outside) (url sq : option string)
  (opts : option YdlOpts) (timeout : option Z) (w : World) :
  let r := (extract_info X url sq opts timeout w).1 in
  (r.1.2 = PNone /\ r.2 = None)
  \/ (r.1.1 = PNone /\ (exists msg, r.1.2 = error_body msg)
      /\ (r.2 = Some 404 \/ r.2 = Some 500 \/ r.2 = Some 504)).
Proof.
  unfold extract_info.
  repeat case_match; cbn [fst snd]; first [by left | right; eauto 10].
Qed.

(** X10.  Without a search query the information of the library is
    returned as it is, a result set with entries included; with a
    search query it is returned as it is when it is no dictionary or
    has no [entries] key. *)
Theorem extract_info_as_is (X : Outside) (url sq : option string)
  (opts : option YdlOpts) (timeout : option Z) (w : World) (info : PyVal) :
  timed_out timeout (gateway_run X url sq opts w) = false ->
  finished (gateway_run X url sq opts w) = Returned info ->
  given sq = false
  \/ (forall d, info <> PDict d)
  \/ (exists d, info = PDict d /\ assoc "entries" d = None) ->
  (extract_info X url sq opts timeout w).1 = (info, PNone, None).
Proof.
  unfold timed_out, gateway_run, extract_info, gateway_target.
  intros -> -> Hcase.
  destruct info as [| | | | |d]; try done.
  destruct Hcase as [-> | [Hd | (d' & [= <-] & ->)]]; try done.
  - by destruct (Hd d).
  - by rewrite andb_false_r.
Qed.

Lemma extract_info_as_is_witness :
  (extract_info playlist_outside (Some "PL1") None (Some ydl_opts_full)
     (Some 60) (start 100)).1
  = (PDict [("id", PStr "PL1"); ("entries", PList [sample_info 7; PNone])],
     PNone, None).
Proof.
  apply (extract_info_as_is playlist_outside (Some "PL1") None
           (Some ydl_opts_full) (Some 60) (start 100)); [done|done|by left].
Defined.

(** ** The routes and the cache *)

Ltac split_route :=
  unfold fast_meta_finish, store_or_500, uncaught, jsonify_with;
  repeat match goal with
  | |- context [extract_info ?X ?u ?s ?o ?t ?w] =>
      let Hw := fresh "Hw" in
      let E := fresh "E" in
      pose proof (extract_info_world X u s o t w) as [_ Hw];
      pose proof (extract_info_triple X u s o t w) as E;
      destruct (extract_info X u s o t w) as [[[? ?] ?] ?];
      cbn [fst snd] in Hw, E
  | |- context [if ?b then _ else _] => destruct b eqn:?
  | |- context [match ?x with _ => _ end] => destruct x eqn:?
  end.

Section RoutesAndCache.
Variable X : Outside.

(** X14.  A route that keeps data stores nothing with a reply 400, 404
    or 504, and nothing when the gateway reports a failure, whatever
    its code: the reply is then the error of the gateway with its code,
    and the cache is as the request found it, the entry under its key
    deleted if the request carried [latest]. *)
Theorem errors_not_stored (r : Route) (qs : string) (w : World) :
  keeps_data r = true ->
  (In (status_of (handle X r qs w).1) [400; 404; 504] ->
   cache (handle X r qs w).2 = cache (after_bypass X r qs w))
  /\ (forall url sq opts timeout,
        missing_params X r qs = false ->
        answers_from_cache X r qs w = false ->
        gateway_args X r qs = Some (url, sq, opts, timeout) ->
        let a := (extract_info X url sq (Some opts) timeout
                    (after_bypass X r qs w)).1 in
        truthy a.1.2 = true ->
        (exists code, a.2 = Some code /\ (handle X r qs w).1 = Resp code a.1.2)
        /\ cache (handle X r qs w).2 = cache (after_bypass X r qs w)).
Proof.
  intros Hk. split.
  - destruct r; try discriminate Hk; open_route; split_route;
      cbn [fst snd status_of cache cache_set cache_delete set_cache log_call In];
      intros Hs; try done; try congruence;
      exfalso; unfold jsonify in Hs; cbn [status_of] in Hs;
      intuition discriminate.
  - intros url sq opts timeout Hm Hc Ha. revert Hm Hc Ha.
    destruct r; try discriminate Hk; open_route;
      intros Hm Hc Ha; rewrite ?Hm, ?Hc;
      repeat match goal with
      | H : context [nonempty ?p] |- _ => destruct (nonempty p)
      end; simplify_eq/=;
      match goal with
      | |- context [extract_info X ?u ?s ?o ?t ?w] =>
          pose proof (extract_info_world X u s o t w) as [_ Hw];
          pose proof (extract_info_triple X u s o t w) as E;
          destruct (extract_info X u s o t w) as [[[? ?] ?] ?]
      end;
      cbn [fst snd] in *; intros Herr; rewrite Herr;
      (destruct E as [[-> ->] | (_ & _ & Hcode)]; [done|]);
      unfold jsonify_with;
      (split; [|done]);
      destruct Hcode as [-> | [-> | ->]]; by eexists.
Qed.

Lemma after_bypass_sub (r : Route) (qs : string) (w : World) :
  cache (after_bypass X r qs w) ⊆ cache w
  /\ forall key, cache_key X r qs <> Some key ->
       cache (after_bypass X r qs w) !! key = cache w !! key.
Proof.
  unfold after_bypass. destruct (cache_key X r qs) as [k|]; [|done].
  repeat case_match; try done.
  unfold cache_delete, set_cache. cbn [cache]. split.
  - apply delete_subseteq.
  - intros key Hne. apply lookup_delete_ne. congruence.
Qed.

(** Under another key than its own a request changes no entry, and
    drops none unless the cache is over its threshold. *)
Lemma handle_other_keys (r : Route) (qs : string) (w : World) (key : string) :
  cache_key X r qs <> Some key ->
  (forall v, cache (handle X r qs w).2 !! key = Some v -> cache w !! key = Some v)
  /\ ((size (cache w) <= CACHE_THRESHOLD)%nat ->
      cache (handle X r qs w).2 !! key = cache w !! key).
Proof.
  intros Hne. destruct (after_bypass_sub r qs w) as [Hsub Hb].
  specialize (Hb key Hne).
  destruct (handle_world X r qs w)
    as [-> | (k & e & c & m & -> & Hk & _ & Hm & Hsmall)].
  - by rewrite Hb.
  - assert (k <> key) as Hk' by congruence.
    rewrite lookup_insert_ne by done. split.
    + intros v Hv. rewrite <- Hb. by eapply lookup_weaken.
    + intros Hsize. rewrite Hsmall, Hb; [done|].
      apply map_subseteq_size in Hsub. lia.
Qed.

(** X15.  A request touches the cache under its own key only.  While
    the cache holds no more entries than its threshold, every other
    entry is after the request what it was before; over the threshold
    the pruning of the backend may drop other entries, and none is
    changed.  A route without a key leaves the whole cache as it
    was. *)
Theorem other_keys_untouched (r : Route) (qs : string) (w : World) (key : string) :
  (cache_key X r qs <> Some key ->
   (size (cache w) <= CACHE_THRESHOLD)%nat ->
   cache (handle X r qs w).2 !! key = cache w !! key)
  /\ (cache_key X r qs <> Some key ->
      cache (handle X r qs w).2 !! key = cache w !! key
      \/ cache (handle X r qs w).2 !! key = None)
  /\ (cache_key X r qs = None -> cache (handle X r qs w).2 = cache w).
Proof.
  split; [|split].
  - intros Hne. by apply handle_other_keys.
  - intros Hne. destruct (handle_other_keys r qs w key Hne) as [Hsub _].
    destruct (cache (handle X r qs w).2 !! key) as [v|] eqn:E; [|by right].
    left. by rewrite (Hsub v).
  - intros Hnone.
    destruct (handle_world X r qs w)
      as [-> | (k & e & c & m & _ & Hk & _)]; [|congruence].
    unfold after_bypass. by rewrite Hnone.
Qed.

(** X16.  The key of a cache entry tells the route that wrote it: two
    requests on different routes never share a key, and two requests
    of [/download] share one only when their query strings are the
    same. *)
Theorem keys_tell_routes (r r' : Route) (qs qs' key : string) :
  cache_key X r qs = Some key ->
  cache_key X r' qs' = Some key ->
  r = r' /\ (r = Download -> qs = qs').
Proof.
  intros Hk Hk'.
  assert (r' = r) as ->.
  { apply cache_key_route in Hk, Hk'. congruence. }
  split; [done|]. by destruct (cache_key_inj X r qs qs' key Hk Hk').
Qed.

(** X17.  The key of [/api/meta] joins [search] and [url] with a colon
    and so does not tell them apart when [search] holds one: a request
    with search [a:b] and url [c] and a request with search [a] and url
    [b:c] have the same key, and after the first was answered with
    status 200 the second gets the answer of the first from the cache,
    without a call of the gateway. *)
Theorem meta_keys_collide (qs qs' a b c : string) (w : World)
  (body : PyVal) (d : Z) :
  arg X qs "search" = a +:+ ":" +:+ b -> arg X qs "url" = c ->
  arg X qs' "search" = a -> arg X qs' "url" = b +:+ ":" +:+ c ->
  reachable X w ->
  latest X qs = false -> latest X qs' = false ->
  (handle X Meta qs w).1 = Resp 200 body ->
  truthy body = true ->
  let w1 := advance d (handle X Meta qs w).2 in
  cache_key X Meta qs = cache_key X Meta qs'
  /\ handle X Meta qs' w1 = (Resp 200 body, w1).
Proof.
  intros Hs Hu Hs' Hu' Hw Hl Hl' Hr Hb w1.
  assert (cache_key X Meta qs = cache_key X Meta qs') as Hkey.
  { cbn [cache_key]. rewrite Hs, Hu, Hs', Hu'. f_equal.
    by rewrite !app_assoc_s. }
  split; [done|].
  destruct (first_success X Meta qs w body (reachable_ok X w Hw) eq_refl Hl Hr Hb)
    as (key & Hk & Hget).
  apply (served_from_cache X Meta qs' w1 key body eq_refl Hl');
    [congruence|apply Hget|done].
Qed.

(** ** What the routes answer *)

Lemma views_ok_delete key m : views_ok m -> views_ok (delete key m).
Proof.
  intros Hm k e rv [_ Hl]%lookup_delete_Some. by eapply Hm.
Qed.

Lemma views_ok_data key e v m : views_ok m -> views_ok (<[key := (e, CData v)]> m).
Proof.
  intros Hm k e' rv. destruct (decide (key = k)) as [<-|Hne].
  - by rewrite lookup_insert_eq.
  - rewrite lookup_insert_ne by done. apply Hm.
Qed.

Lemma views_ok_view key e rv m :
  good_reply rv -> views_ok m -> views_ok (<[key := (e, CView rv)]> m).
Proof.
  intros Hrv Hm k e' rv'. destruct (decide (key = k)) as [<-|Hne].
  - rewrite lookup_insert_eq. by intros [= <- <-].
  - rewrite lookup_insert_ne by done. apply Hm.
Qed.

Lemma views_ok_pruned w : views_ok (cache w) -> views_ok (pruned X w).
Proof.
  intros Hm k e rv Hl. eapply Hm. eapply lookup_weaken; [exact Hl|].
  apply pruned_sub.
Qed.

Lemma cache_get_view key w rv :
  views_ok (cache w) -> cache_get key w = CView rv -> good_reply rv.
Proof.
  intros Hm. unfold cache_get.
  destruct (cache w !! key) as [[e c]|] eqn:Hl; [|done].
  destruct ((e =? 0) || (clock w <? e)); [|done]. intros ->. by eapply Hm.
Qed.

Lemma handle_good (r : Route) (qs : string) (w : World) :
  views_ok (cache w) ->
  good_reply (handle X r qs w).1 /\ views_ok (cache (handle X r qs w).2).
Proof.
  intros Hm.
  destruct r; open_route; unfold make_response, jsonify_cached, jsonify;
    try match goal with flag : bool |- _ => destruct flag end;
    split_route;
    try match goal with
        | E : _ \/ _ |- _ =>
            destruct E as [[-> ->] | (-> & [? ->] & [-> | [-> | ->]])]
        end;
    try discriminate;
    cbn [fst snd cache cache_set cache_delete set_cache log_call];
    rewrite ?Hw; cbn [cache cache_delete set_cache];
    (split;
     [ cbn [good_reply default from_option]; unfold id;
       first [ by left
             | done
             | by right; split; [tauto|eexists]
             | by eapply cache_get_view;
                 [|eassumption]; cbn [cache cache_delete set_cache];
                 try apply views_ok_delete
             | idtac ]
     | repeat first [ assumption
                    | apply views_ok_delete
                    | apply views_ok_data
                    | apply views_ok_view
                    | apply views_ok_pruned
                    | match goal with
                      | H : cache ?w0 = _ |- views_ok (cache ?w0) =>
                          rewrite H; cbn [cache cache_delete set_cache log_call]
                      end ] ]).
  all: try (cbn [good_reply default from_option]; unfold id;
            by right; split; [tauto|eexists]).
  all: cbn [good_reply]; left;
    destruct (formats_data _); [by injection Heqr as <- _|done].
Qed.

(** X18.  In every state the process can reach, every route answers
    with one of the statuses 200, 400, 404, 500 and 504, and a reply
    with another status than 200 that a view returns has a body
    [{error: message}]. *)
Theorem statuses_and_bodies (r : Route) (qs : string) (w : World) :
  reachable X w ->
  In (status_of (handle X r qs w).1) [200; 400; 404; 500; 504]
  /\ forall c b, (handle X r qs w).1 = Resp c b -> c <> 200 ->
       exists msg, b = error_body msg.
Proof.
  intros Hw.
  assert (views_ok (cache w)) as Hm.
  { induction Hw as [t | w r' qs' _ IH | w d _ IH _].
    - intros key e rv. unfold start. cbn [cache]. by rewrite lookup_empty.
    - by apply handle_good.
    - exact IH. }
  destruct (handle_good r qs w Hm) as [Hg _].
  destruct (handle X r qs w).1 as [c b|e]; cbn [status_of good_reply] in *.
  - split.
    + cbn. destruct Hg as [-> | [[-> | [-> | [-> | ->]]] _]]; tauto.
    + intros c' b' [= <- <-] Hc. destruct Hg as [-> | [_ Hb]]; done.
  - split; [cbn; tauto|done].
Qed.

(** X19.  The home route always answers with status 200 and the
    message that the API is alive, in every state the process can
    reach, and no call leaves the application. *)
Theorem home_alive (qs : string) (w : World) :
  reachable X w ->
  (handle X Home qs w).1 = Resp 200 alive_message
  /\ calls (handle X Home qs w).2 = calls w.
Proof.
  intros Hw.
  assert (forall e c, cache w !! "home" = Some (e, c) -> c = CData alive_message)
    as Hm.
  { induction Hw as [t | w r' qs' _ IH | w d _ IH _].
    - intros e c. unfold start. cbn [cache]. by rewrite lookup_empty.
    - destruct (decide (cache_key X r' qs' = Some "home")) as [Hk|Hne].
      + apply cache_key_route in Hk. injection Hk as <-.
        cbn [handle]. unfold home. cbn zeta.
        repeat case_match;
          cbn [snd cache cache_set cache_delete set_cache];
          intros e c;
          rewrite ?lookup_insert_eq, ?lookup_delete_eq;
          first [ by intros [= <- <-] | done | apply IH ].
      + intros e c Hl. eapply IH.
        by eapply (proj1 (handle_other_keys r' qs' w "home" Hne)).
    - exact IH. }
  cbn [handle]. unfold home. cbn zeta.
  assert (forall w', (w' = w \/ w' = cache_delete "home" w) ->
            cache_get "home" w' = CData PNone
            \/ cache_get "home" w' = CData alive_message) as Hget.
  { intros w' [-> | ->].
    - unfold cache_get. destruct (cache w !! "home") as [[e c]|] eqn:Hl; [|by left].
      rewrite (Hm e c eq_refl). destruct ((e =? 0) || (clock w <? e)); [by right|by left].
    - left. apply cache_get_deleted. }
  destruct (args_has _ "latest").
  - destruct (Hget (cache_delete "home" w)) as [-> | ->]; [by right|done|done].
  - destruct (Hget w) as [-> | ->]; [by left|done|done].
Qed.

End RoutesAndCache.

(** ** Shaping *)

Section Shaping.
Variable X : Outside.



(** X21.  The reply of [/api/meta] is made of the sixteen listed
    fields and of nothing else: two extraction results that agree on
    these fields give the same body, whatever else they hold, a field
    that is missing is [None], and information that is no dictionary
    raises. *)
Theorem meta_allowlist (d d' : list (string * PyVal)) :
  (meta_data (PDict d)
   = Ok (PDict [("metadata", PDict ((fun k => (k, dict_get d k)) <$> meta_keys))]))
  /\ ((forall k, In k meta_keys -> dict_get d k = dict_get d' k) ->
      meta_data (PDict d) = meta_data (PDict d'))
  /\ (forall info, (forall x, info <> PDict x) ->
      meta_data info = Raise (AttributeError info "get")).
Proof.
  assert (forall x, meta_data (PDict x)
          = Ok (PDict [("metadata",
                        PDict ((fun k => (k, dict_get x k)) <$> meta_keys))]))
    as Hshape by done.
  split; [apply Hshape|]. split.
  - intros Hagree. rewrite !Hshape. do 5 f_equal.
    apply list_fmap_ext. intros i k Hk. f_equal. apply Hagree.
    apply list_elem_of_In. by eapply list_elem_of_lookup_2.
  - intros info Hi. destruct info; try done. by destruct (Hi d0).
Qed.

Lemma res_map_all_ok {A B} (f : A -> Res B) (l : list A) :
  Forall (fun x => exists b, f x = Ok b) l ->
  exists bs, res_map f l = Ok bs /\ length bs = length l.
Proof.
  induction 1 as [|x l [b Hx] _ (bs & IH & Hlen)].
  - by exists [].
  - exists (b :: bs). cbn [res_map]. rewrite Hx, IH. cbn. by rewrite Hlen.
Qed.

(** X22.  The videos of a playlist are shaped one by one: when every
    entry is a dictionary there are as many videos as entries; one
    entry that is no dictionary, such as the [None] of a video that is
    not available, makes the shaping raise, which [/api/playlist]
    answers with status 500. *)
Theorem playlist_entries (d : list (string * PyVal)) (es : list PyVal) (key : string)
  (w : World) :
  dict_get_or d "entries" (PList []) = PList es ->
  (Forall is_dict es ->
   exists videos,
     length videos = length es
     /\ playlist_data (PDict d)
        = Ok (PDict [("id", dict_get d "id");
                     ("title", dict_get d "title");
                     ("url", dict_get d "webpage_url");
                     ("item_count", dict_get d "playlist_count");
                     ("videos", PList videos)]))
  /\ (forall es1 v es2,
       es = es1 ++ v :: es2 -> Forall is_dict es1 -> ~ is_dict v ->
       playlist_data (PDict d) = Raise (AttributeError v "get")
       /\ store_or_500 X key (playlist_data (PDict d)) w
          = (Resp 500 (error_body (str_exc X (AttributeError v "get"))), w)).
Proof.
  intros He.
  assert (forall l, Forall is_dict l ->
            Forall (fun x => exists b, playlist_video x = Ok b) l) as Hok.
  { intros l Hl. eapply Forall_impl; [exact Hl|].
    intros x [dx ->]. by eexists. }
  split.
  - intros Hall. destruct (res_map_all_ok playlist_video es (Hok es Hall))
      as (videos & Hv & Hlen).
    exists videos. split; [done|].
    unfold playlist_data. cbn [py_get_or mbind res_bind]. rewrite He.
    cbn [py_iter mbind res_bind]. by rewrite Hv.
  - intros es1 v es2 -> Hall Hv.
    assert (playlist_data (PDict d) = Raise (AttributeError v "get")) as Hp.
    { unfold playlist_data. cbn [py_get_or mbind res_bind]. rewrite He.
      cbn [py_iter mbind res_bind].
      rewrite (res_map_raises playlist_video es1 es2 v (AttributeError v "get"));
        [done|by apply Hok|].
      destruct v; try done. destruct Hv. by eexists. }
    split; [done|]. by rewrite Hp.
Qed.

(** X23.  The search branch of [/api/fast-meta] asks the search library
    and never the gateway.  No result is a reply 404 with the body
    [{'error': 'No results'}], an exception of the library a reply 500
    with the body [{'error': message}], the message being the
    library's; in both cases nothing is stored. *)
Theorem fast_meta_search_errors (qs : string) (w : World) :
  nonempty (arg X qs "search") = true ->
  answers_from_cache X FastMeta qs w = false ->
  let w0 := after_bypass X FastMeta qs w in
  let q := arg X qs "search" in
  calls (handle X FastMeta qs w).2 = calls w ++ [SearchCall q]
  /\ (forall results,
       search_run X (length (calls w)) q = SearchReturned results ->
       truthy results = false ->
       (handle X FastMeta qs w).1
       = Resp 404 (PDict [("error", PStr "No results")])
       /\ cache (handle X FastMeta qs w).2 = cache w0)
  /\ (forall msg,
       search_run X (length (calls w)) q = SearchRaised msg ->
       (handle X FastMeta qs w).1 = Resp 500 (PDict [("error", PStr msg)])
       /\ cache (handle X FastMeta qs w).2 = cache w0).
Proof.
  intros Hq Hc. revert Hq Hc. open_route. intros Hq ->. rewrite Hq.
  cbn [negb andb].
  unfold fast_meta_finish, fast_meta_search.
  destruct flag;
    try change (calls (cache_delete _ w)) with (calls w);
    (split; [repeat case_match; done|]);
    (split; [intros results -> ->; done | intros msg ->; done]).
Qed.


Lemma extract_info_clock (url sq : option string) (opts : option YdlOpts)
  (t : Z) (w : World) :
  0 <= t ->
  clock (extract_info X url sq opts (Some t) w).2 <= clock w + t.
Proof.
  intros Ht. unfold extract_info. set (run := ydl_run X _ _ _).
  destruct (Z.ltb_spec t (elapsed run)) as [Hlt|Hge].
  - cbn [snd advance clock log_call default from_option]. unfold id. lia.
  - repeat case_match; cbn [snd advance clock log_call]; lia.
Qed.

(** X24.  A route that calls the gateway with a timeout [t] does not
    wait for the library longer than that: the clock has moved by [t]
    seconds at most when the route answers. *)
Theorem route_deadline (r : Route) (qs : string) (w : World)
  (url sq : option string) (opts : YdlOpts) (t : Z) :
  gateway_args X r qs = Some (url, sq, opts, Some t) ->
  0 <= t ->
  clock (handle X r qs w).2 <= clock w + t.
Proof.
  intros Ha Ht. revert Ha.
  destruct r; try done; open_route;
    try match goal with flag : bool |- _ => destruct flag end;
    unfold fast_meta_finish, store_or_500, uncaught, jsonify_with;
    repeat match goal with
    | |- context [extract_info ?X ?u ?s ?o (Some ?t) ?w] =>
        let Hw := fresh "Hw" in
        pose proof (extract_info_clock u s o t w) as Hw;
        destruct (extract_info X u s o (Some t) w) as [[[? ?] ?] ?];
        cbn [snd] in Hw
    | |- context [if ?b then _ else _] => destruct b eqn:?
    | |- context [match ?x with _ => _ end] => destruct x eqn:?
    end;
    intros Ha; simplify_eq;
    cbn [snd clock cache_set cache_delete set_cache log_call] in *; lia.
Qed.

End Shaping.

(** ** Exceptions *)

Section Exceptions.
Variable X : Outside.


(** X25.  When the shaping of a route raises for the information the
    library returned, [/api/fast-meta], [/api/channel] and
    [/api/playlist], whose work is in a [try] block, answer with status
    500 and the body [{'error': str(e)}]; [/api/meta], [/api/all],
    [/download], [/api/audio] and [/api/video] have no handler and the
    exception leaves the view.  Nothing is stored in either case. *)
Theorem exceptions_caught_or_not (r : Route) (qs : string) (w : World)
  (url sq : option string) (opts : YdlOpts) (timeout : option Z)
  (info : PyVal) (e : PyExc) :
  missing_params X r qs = false ->
  answers_from_cache X r qs w = false ->
  gateway_args X r qs = Some (url, sq, opts, timeout) ->
  (extract_info X url sq (Some opts) timeout (after_bypass X r qs w)).1
  = (info, PNone, None) ->
  shaping_raises X r info e ->
  (handle X r qs w).1
  = (if catches r
     then Resp 500 (PDict [("error", PStr (str_exc X e))])
     else Unhandled e)
  /\ cache (handle X r qs w).2 = cache (after_bypass X r qs w).
Proof.
  intros Hm Hc Ha He Hf. revert Hm Hc Ha He.
  destruct r; try (by destruct Hf); cbn [shaping_raises catches] in *; open_route;
    intros Hm Hc Ha; rewrite ?Hm, ?Hc;
    repeat match goal with
    | H : context [nonempty ?p] |- _ => destruct (nonempty p)
    end; simplify_eq/=;
    (pose proof (extract_info_world X) as Hworld;
     match goal with
     | |- context [extract_info ?X ?u ?s ?o ?t ?w] =>
         specialize (Hworld u s o t w) as [_ Hworld];
         destruct (extract_info X u s o t w) as [[[? ?] ?] ?]
     end);
    cbn [fst snd] in *; intros [= -> -> ->];
    cbn [truthy]; unfold fast_meta_finish, store_or_500;
    rewrite Hf; cbn [mbind res_bind uncaught fst snd]; by rewrite ?Hworld.
Qed.


End Exceptions.

(** ** The further properties on sample runs *)

Lemma exceptions_caught_or_not_witness :
  (missing_params none_outside Meta "url=x" = false
   /\ answers_from_cache none_outside Meta "url=x" (start 100) = false
   /\ shaping_raises none_outside Meta PNone (AttributeError PNone "get")
   /\ shaping_raises none_outside Channel PNone (AttributeError PNone "get"))
  /\ (handle none_outside Meta "url=x" (start 100)).1
     = Unhandled (AttributeError PNone "get")
  /\ (handle none_outside Channel "url=x" (start 100)).1
     = Resp 500 (PDict [("error", PStr "error")]).
Proof.
  split; [by vm_compute|]. split.
  - by apply (exceptions_caught_or_not none_outside Meta "url=x" (start 100)
                (Some "x") None ydl_opts_meta (Some 6) PNone
                (AttributeError PNone "get")); vm_compute.
  - by apply (exceptions_caught_or_not none_outside Channel "url=x" (start 100)
                (Some "x") None ydl_opts_meta (Some 20) PNone
                (AttributeError PNone "get")); vm_compute.
Defined.


Lemma uncached_routes_call_witness :
  (cache_key sample_outside All "url=x" = None
   /\ missing_params sample_outside All "url=x" = false
   /\ gateway_call sample_outside All "url=x"
      = Some (YdlCall ydl_opts_full (Some "x") (Some 30)))
  /\ calls (handle sample_outside All "url=x" (start 100)).2
     = calls (start 100) ++ [YdlCall ydl_opts_full (Some "x") (Some 30)].
Proof.
  split; [by vm_compute|].
  apply (uncached_routes_call sample_outside All "url=x"); by vm_compute.
Defined.

Lemma download_repeat_witness :
  let w1 := (handle sample_outside Download "url=x" (start 100)).2 in
  (answers_from_cache sample_outside Download "url=x" (start 100) = false
   /\ 60 < STREAM_TIMEOUT)
  /\ handle sample_outside Download "url=x" (advance 60 w1)
     = ((handle sample_outside Download "url=x" (start 100)).1, advance 60 w1).
Proof.
  split; [by vm_compute|].
  destruct (download_repeat sample_outside "url=x" (start 100) 60) as [Hin _].
  - by vm_compute.
  - intros e. by vm_compute.
  - apply Hin. by vm_compute.
Defined.

Lemma errors_not_stored_witness :
  (keeps_data Meta = true
   /\ In (status_of (handle slow_outside Meta "search=cats" (start 100)).1)
        [400; 404; 504])
  /\ cache (handle slow_outside Meta "search=cats" (start 100)).2
     = cache (after_bypass slow_outside Meta "search=cats" (start 100)).
Proof.
  split; [split; [done|vm_compute; tauto]|].
  apply (errors_not_stored slow_outside Meta "search=cats" (start 100));
    [done|vm_compute; tauto].
Defined.

Lemma other_keys_untouched_witness :
  let w1 := (handle sample_outside Home EmptyString (start 100)).2 in
  (cache_key sample_outside Meta "search=cats" <> Some "home"
   /\ (size (cache w1) <= CACHE_THRESHOLD)%nat
   /\ cache_key sample_outside All "url=x" = None)
  /\ cache (handle sample_outside Meta "search=cats" w1).2 !! "home"
     = cache w1 !! "home"
  /\ cache (handle sample_outside All "url=x" w1).2 = cache w1.
Proof.
  assert (size (cache (handle sample_outside Home EmptyString (start 100)).2)
          <= CACHE_THRESHOLD)%nat as Hsize by (vm_compute; lia).
  split; [split; [by vm_compute|split; [exact Hsize|by vm_compute]]|]. split.
  - apply (other_keys_untouched sample_outside Meta "search=cats");
      [by vm_compute|exact Hsize].
  - apply (other_keys_untouched sample_outside All "url=x" _ "home").
    by vm_compute.
Defined.

Lemma keys_tell_routes_witness :
  (cache_key sample_outside Download "url=x" = Some "download:/download?url=x")
  /\ (Download = Download /\ (Download = Download -> "url=x" = "url=x")).
Proof.
  split; [by vm_compute|].
  apply (keys_tell_routes sample_outside Download Download "url=x" "url=x"
           "download:/download?url=x"); by vm_compute.
Defined.

Lemma meta_keys_collide_witness :
  let qs := "search=a:b" in
  let qs' := "search=a&url=b:" in
  let w1 := advance 5 (handle sample_outside Meta qs (start 100)).2 in
  (arg sample_outside qs "search" = "a" +:+ ":" +:+ "b"
   /\ arg sample_outside qs "url" = EmptyString
   /\ arg sample_outside qs' "search" = "a"
   /\ arg sample_outside qs' "url" = "b" +:+ ":" +:+ EmptyString
   /\ latest sample_outside qs = false /\ latest sample_outside qs' = false
   /\ (handle sample_outside Meta qs (start 100)).1 = Resp 200 sample_meta_body
   /\ truthy sample_meta_body = true)
  /\ cache_key sample_outside Meta qs = cache_key sample_outside Meta qs'
  /\ handle sample_outside Meta qs' w1 = (Resp 200 sample_meta_body, w1).
Proof.
  split; [by vm_compute|].
  apply (meta_keys_collide sample_outside "search=a:b" "search=a&url=b:"
           "a" "b" EmptyString (start 100) sample_meta_body 5);
    by first [constructor | vm_compute].
Defined.

Lemma statuses_and_bodies_witness :
  reachable slow_outside (start 100)
  /\ In (status_of (handle slow_outside Meta "search=cats" (start 100)).1)
        [200; 400; 404; 500; 504]
  /\ forall c b,
       (handle slow_outside Meta "search=cats" (start 100)).1 = Resp c b ->
       c <> 200 -> exists msg, b = error_body msg.
Proof.
  assert (reachable slow_outside (start 100)) as Hr by constructor.
  split; [done|].
  by apply (statuses_and_bodies slow_outside Meta "search=cats" (start 100)).
Defined.

Lemma home_alive_witness :
  let w1 := (handle sample_outside Home "latest=1" (start 100)).2 in
  reachable sample_outside w1
  /\ (handle sample_outside Home EmptyString w1).1 = Resp 200 alive_message
  /\ calls (handle sample_outside Home EmptyString w1).2 = calls w1.
Proof.
  assert (reachable sample_outside
            (handle sample_outside Home "latest=1" (start 100)).2) as Hr
    by (apply reach_request, reach_start).
  split; [done|].
  by apply (home_alive sample_outside EmptyString).
Defined.


Lemma meta_allowlist_witness :
  let d := [("id", PStr "abc"); ("title", PStr "clip")] in
  let d' := [("id", PStr "abc"); ("formats", PList [PNone]); ("title", PStr "clip")] in
  (forall k, In k meta_keys -> dict_get d k = dict_get d' k)
  /\ meta_data (PDict d) = meta_data (PDict d').
Proof.
  assert (forall k, In k meta_keys ->
            dict_get [("id", PStr "abc"); ("title", PStr "clip")] k
            = dict_get [("id", PStr "abc"); ("formats", PList [PNone]);
                        ("title", PStr "clip")] k) as Hagree.
  { intros k Hk. cbn in Hk.
    repeat (destruct Hk as [<- | Hk]; [done|]). done. }
  split; [done|].
  by apply (meta_allowlist [("id", PStr "abc"); ("title", PStr "clip")]).
Defined.

Lemma playlist_entries_witness :
  let d := [("id", PStr "PL1"); ("entries", PList [sample_info 7; PNone])] in
  dict_get_or d "entries" (PList []) = PList [sample_info 7; PNone]
  /\ playlist_data (PDict d) = Raise (AttributeError PNone "get").
Proof.
  split; [done|].
  destruct (playlist_entries sample_outside
              [("id", PStr "PL1"); ("entries", PList [sample_info 7; PNone])]
              [sample_info 7; PNone] "playlist:PL1" (start 100) eq_refl)
    as [_ Hbad].
  apply (Hbad [sample_info 7] PNone []).
  - done.
  - constructor; [by eexists|constructor].
  - by intros [x Hx].
Defined.


Lemma fast_meta_search_errors_witness :
  (nonempty (arg sample_outside "search=cats" "search") = true
   /\ answers_from_cache sample_outside FastMeta "search=cats" (start 100) = false)
  /\ (handle sample_outside FastMeta "search=cats" (start 100)).1
     = Resp 404 (PDict [("error", PStr "No results")])
  /\ (handle failing_outside FastMeta "search=cats" (start 100)).1
     = Resp 500 (PDict [("error", PStr "no network")]).
Proof.
  split; [by vm_compute|].
  destruct (fast_meta_search_errors sample_outside "search=cats" (start 100))
    as (_ & Hnone & _); [by vm_compute..|].
  destruct (fast_meta_search_errors failing_outside "search=cats" (start 100))
    as (_ & _ & Hraised); [by vm_compute..|].
  split; [by apply (Hnone (PList []))|by apply (Hraised "no network")].
Defined.

Lemma route_deadline_witness :
  (gateway_args slow_outside Meta "search=cats"
   = Some (None, Some "cats", ydl_opts_meta, Some 6)
   /\ 0 <= 6)
  /\ clock (handle slow_outside Meta "search=cats" (start 100)).2 <= 100 + 6.
Proof.
  split; [by vm_compute|].
  apply (route_deadline slow_outside Meta "search=cats" (start 100)
           None (Some "cats") ydl_opts_meta 6); by vm_compute.
Defined.
